(** * Nuclei runner: template loading, and the execution core it feeds

    Part I embeds the code: the Go [strings] functions the runner calls,
    then [v2/internal/runner/templates.go], then the execution core as its
    specification describes it.  Part II states and proves the properties;
    Part III adds further properties of templates.go. *)

From Stdlib Require Import ZArith NArith Ascii Bool Lia.
From stdpp Require Import base option list strings gmap fin_maps.

Local Open Scope Z_scope.

(* ===================================================================== *)
(** * Part I: definitions                                                 *)
(* ===================================================================== *)

(** ** Go's [strings] package, as far as templates.go calls it.

    A Go string is a sequence of bytes; [string] (a list of [ascii], that is
    of 8-bit characters) is exactly that. *)
Module strings.

(** [strings.HasPrefix(s, prefix)]:
    [len(s) >= len(prefix) && s[:len(prefix)] == prefix]. *)
Definition HasPrefix (s prefix : string) : bool :=
  (String.length prefix <=? String.length s)%nat
  && String.eqb (String.substring 0 (String.length prefix) s) prefix.

(** [strings.Contains(s, substr)]: [substr] occurs at some offset of [s]. *)
Fixpoint Contains (s substr : string) : bool :=
  HasPrefix s substr
  || match s with
     | EmptyString => false
     | String _ s' => Contains s' substr
     end.

(** [strings.Split(s, sep)] for a separator of one byte, the only way the
    runner calls it ([sep = ","]): [s] is cut at every occurrence of [sep];
    a string without [sep] gives the one-element list [[s]], and the empty
    string gives [[""]]. *)
Fixpoint Split (s : string) (sep : ascii) : list string :=
  match s with
  | EmptyString => [EmptyString]
  | String c s' =>
      if Ascii.eqb c sep then EmptyString :: Split s' sep
      else match Split s' sep with
           | [] => [String c EmptyString]
           | w :: ws => String c w :: ws
           end
  end.

(** [strings.Join(elems, sep)]. *)
Fixpoint Join (elems : list string) (sep : string) : string :=
  match elems with
  | [] => EmptyString
  | [e] => e
  | e :: rest => e +:+ sep +:+ Join rest sep
  end.

(** [strings.ToLower] on one byte of an ASCII string: ['A'..'Z'] move to
    ['a'..'z'], every other byte stays. *)
Definition lower_byte (c : ascii) : ascii :=
  let n := N_of_ascii c in
  if ((65 <=? n) && (n <=? 90))%N then ascii_of_N (n + 32) else c.

(** [strings.ToLower] as Go computes it for a string of ASCII bytes (its
    fast path).  For other strings Go lowers code point by code point with
    the Unicode tables; the runner's functions below therefore take the
    lower-casing function as a parameter, and this one is an instance. *)
Fixpoint ToLowerASCII (s : string) : string :=
  match s with
  | EmptyString => EmptyString
  | String c s' => String (lower_byte c) (ToLowerASCII s')
  end.

(** [strings.HasSuffix(s, suffix)]:
    [len(s) >= len(suffix) && s[len(s)-len(suffix):] == suffix]. *)
Definition HasSuffix (s suffix : string) : bool :=
  (String.length suffix <=? String.length s)%nat
  && String.eqb
       (String.substring (String.length s - String.length suffix)
          (String.length suffix) s)
       suffix.

End strings.

(** ** [pkg/templates]: the parsed template, as far as the runner reads it. *)
Module templates.

(** [templates.Template].  [Info] is Go's [map[string]interface{}]; the type
    of its values stays abstract ([Value]) and is only ever rendered through
    [types.ToString].  [Workflows] holds the workflow entries (here their
    template references); only their number is inspected. *)
Record Template (Value : Type) := {
  ID : string;
  Info : gmap string Value;
  Workflows : list string;
  Code : string;
}.
Arguments ID {Value} _.
Arguments Info {Value} _.
Arguments Workflows {Value} _.
Arguments Code {Value} _.

End templates.

(** ** [gologger]: a message and its level. *)
Module gologger.

Inductive Level := Info | Warning | Error | Print.

Record Event := { level : Level; message : string }.

Definition Msgf (l : Level) (msg : string) : Event :=
  {| level := l; message := msg |}.

End gologger.

(** ** [v2/internal/runner/templates.go] *)
Module runner.

(** [type TemplateType uint16] with its three named constants. *)
Definition TemplateType := N.
Definition Template : TemplateType := 0%N.
Definition Workflows : TemplateType := 1%N.
Definition AdvancedWorkflow : TemplateType := 2%N.

(** What the loop of [getParsedTemplatesFor] carries from one path to the
    next: the map under construction, the counter, and the messages logged
    so far (oldest first).  The counter is a Go [int]; it is raised at most
    once per path, so it stays within the length of [templatePaths] and
    never wraps. *)
Record Loaded (Value : Type) := {
  parsedTemplates : gmap string (templates.Template Value);
  workflowCount : Z;
  logged : list gologger.Event;
}.
Arguments parsedTemplates {Value} _.
Arguments workflowCount {Value} _.
Arguments logged {Value} _.

(** The receiver [r *Runner] as far as templates.go reads it, with the
    functions of other packages it calls there. *)
Record Runner (Value : Type) := {
  (** [templates.Parse(file, executerOpts)], the options being those built
      from the fields of [r]: a template pointer (nil or not) and an error
      (nil or its text). *)
  Parse : string -> option (templates.Template Value) * option string;
  (** [types.ToString] applied to [t.Info[key]]; a missing key reads as
      Go's nil interface, [None]. *)
  ToString : option Value -> string;
  (** [strings.ToLower]. *)
  ToLower : string -> string;
  (** [r.colorizer.BrightBlue(s).String()] and its siblings. *)
  BrightBlue : string -> string;
  Bold : string -> string;
  BrightYellow : string -> string;
  (** [r.severityColors.Data]. *)
  severityColors : gmap string string;
}.
Arguments Parse {Value} _.
Arguments ToString {Value} _.
Arguments ToLower {Value} _.
Arguments BrightBlue {Value} _.
Arguments Bold {Value} _.
Arguments BrightYellow {Value} _.
Arguments severityColors {Value} _.

Section Severity.

(** [strings.ToLower]. *)
Variable ToLower : string -> string.

(** [finalSeverities] as the outer loop body of [hasMatchingSeverity]
    builds it for one entry [s]. *)
Definition finalSeverities (s : string) : list string :=
  if strings.Contains s "," then strings.Split s ","%char
  else [] ++ [s].

(** The inner loop of [hasMatchingSeverity]: [true] is the early return. *)
Fixpoint matchesAny (templateSeverity : string) (finalSeverities : list string) : bool :=
  match finalSeverities with
  | [] => false
  | sev :: rest =>
      let sev := ToLower sev in
      if negb (String.eqb sev "") && strings.HasPrefix templateSeverity sev
      then true
      else matchesAny templateSeverity rest
  end.

(** [hasMatchingSeverity(templateSeverity, allowedSeverities)]. *)
Fixpoint hasMatchingSeverity (templateSeverity : string) (allowedSeverities : list string) : bool :=
  match allowedSeverities with
  | [] => false
  | s :: rest =>
      if matchesAny templateSeverity (finalSeverities s) then true
      else hasMatchingSeverity templateSeverity rest
  end.

End Severity.

Section Methods.

Context {Value : Type}.
Variable r : Runner Value.

(** [parseTemplateFile]: an error hides the template; otherwise the
    template (possibly nil) is handed on. *)
Definition parseTemplateFile (file : string) : option (templates.Template Value) * option string :=
  match Parse r file with
  | (_, Some err) => (None, Some err)
  | (None, None) => (None, None)
  | (Some template, None) => (Some template, None)
  end.

(** [templateLogMsg]: ["[%s] %s (%s)"] of the coloured id, name and
    ["@" + author], followed by the severity's colour entry between
    brackets when the severity is not empty (a severity missing from the
    colour map reads as the empty string). *)
Definition templateLogMsg (id name author severity : string) : string :=
  let message :=
    "[" +:+ BrightBlue r id +:+ "] " +:+ Bold r name
    +:+ " (" +:+ BrightYellow r ("@" +:+ author) +:+ ")" in
  if negb (String.eqb severity "") then
    message +:+ " [" +:+ default "" (severityColors r !! severity) +:+ "]"
  else message.

(** [%s] of a [[]string]: the elements between brackets, separated by
    spaces. *)
Definition fmt_strings (l : list string) : string :=
  "[" +:+ strings.Join l " " +:+ "]".

Definition newline : string := String (ascii_of_N 10) EmptyString.

(** The first [switch templateType]: the loading banner. *)
Definition loadingMsg (templateType : TemplateType) : gologger.Event :=
  if (templateType =? AdvancedWorkflow)%N then
    gologger.Msgf gologger.Info "Loading advanced workflows..."
  else if (templateType =? Workflows)%N then
    gologger.Msgf gologger.Info "Loading workflows..."
  else
    gologger.Msgf gologger.Info "Loading templates...".

(** The second [switch templateType], on a parsed template [t] with the
    counter at [count]: [None] is [continue]; [Some count'] goes on to the
    severity filter with the counter at [count'].  A [templateType] other
    than the three constants matches no case. *)
Definition typeSwitch (templateType : TemplateType) (t : templates.Template Value) (count : Z) : option Z :=
  if (templateType =? AdvancedWorkflow)%N then
    if String.eqb (templates.Code t) "" then None else Some (count + 1)
  else if (templateType =? Workflows)%N then
    if (length (templates.Workflows t) =? 0)%nat then None else Some (count + 1)
  else if (templateType =? Template)%N then
    if (0 <? length (templates.Workflows t))%nat || negb (String.eqb (templates.Code t) "")
    then None else Some count
  else Some count.

(** One iteration of [for _, match := range templatePaths], with
    [filterBySeverity] as computed before the loop. *)
Definition loadOne (filterBySeverity : bool) (severities : list string)
    (templateType : TemplateType) (st : Loaded Value) (match_ : string) : Loaded Value :=
  match parseTemplateFile match_ with
  | (_, Some err) =>
      {| parsedTemplates := parsedTemplates st;
         workflowCount := workflowCount st;
         logged := logged st ++
           [gologger.Msgf gologger.Warning
              ("Could not parse file '" +:+ match_ +:+ "': " +:+ err +:+ newline)] |}
  | (None, None) => st
  | (Some t, None) =>
      match typeSwitch templateType t (workflowCount st) with
      | None => st
      | Some count =>
          let sev := ToLower r (ToString r (templates.Info t !! "severity")) in
          if negb filterBySeverity || hasMatchingSeverity (ToLower r) sev severities then
            {| parsedTemplates := <[templates.ID t := t]> (parsedTemplates st);
               workflowCount := count;
               logged := logged st ++
                 [gologger.Msgf gologger.Info
                    (templateLogMsg (templates.ID t)
                       (ToString r (templates.Info t !! "name"))
                       (ToString r (templates.Info t !! "author")) sev +:+ newline)] |}
          else
            {| parsedTemplates := parsedTemplates st;
               workflowCount := count;
               logged := logged st ++
                 [gologger.Msgf gologger.Warning
                    ("Excluding template " +:+ templates.ID t +:+
                     " due to severity filter (" +:+ sev +:+ " not in [" +:+
                     fmt_strings severities +:+ "])")] |}
      end
  end.

(** [getParsedTemplatesFor(templatePaths, severities, templateType)]: the
    returned [(parsedTemplates, workflowCount)] and the messages logged. *)
Definition getParsedTemplatesFor (templatePaths severities : list string)
    (templateType : TemplateType) : Loaded Value :=
  let filterBySeverity := (0 <? length severities)%nat in
  fold_left (loadOne filterBySeverity severities templateType) templatePaths
    {| parsedTemplates := ∅; workflowCount := 0; logged := [loadingMsg templateType] |}.

End Methods.

End runner.

(** ** [godirwalk]: the directory entry handed to a walk's callback. *)
Module godirwalk.

(** [godirwalk.Dirent], as the callback reads it: [d.Name()] and
    [d.IsDir()]. *)
Record Dirent := { Name : string; IsDir : bool }.

End godirwalk.

(** ** [v2/internal/runner/templates.go]: listing the available templates *)
Module lister.

(** [r.templatesConfig], as far as the listing reads it. *)
Record Config := { TemplatesDirectory : string; CurrentVersion : string }.

(** What the listing reads of the runner and of the file system besides
    [runner.Runner]. *)
Record Host := {
  (** [r.templatesConfig]; [None] is the nil pointer. *)
  templatesConfig : option Config;
  (** [os.IsNotExist(err)] for the [err] of [os.Stat(path)]. *)
  NotExist : string -> bool;
  (** [r.colorizer.Bold(r.colorizer.BgBrightBlue(s)).String()]. *)
  BoldBgBrightBlue : string -> string;
  (** [godirwalk.Walk(fsPath, options)] with the options [directoryWalker]
      builds (unsorted, every walk error answered by [SkipNode]): the
      nodes on which the walk invokes the callback, in that order, when the
      callback returns nil on each of them. *)
  Walked : string -> list (string * godirwalk.Dirent);
  (** The error that walk returns, if any. *)
  WalkError : string -> option string;
}.

(** How a function that logs ends: it returns, or it panics, in both cases
    with the messages logged up to there (oldest first). *)
Inductive Ended :=
  | Returned (log : list gologger.Event)
  | Panicked (log : list gologger.Event).

(** How a walk ends: it returns the walk's error (nil or its text), or a
    callback panicked. *)
Inductive Walk :=
  | WalkReturned (log : list gologger.Event) (err : option string)
  | WalkPanicked (log : list gologger.Event).

Section Methods.

Context {Value : Type}.
Variable r : runner.Runner Value.
Variable h : Host.

(** [logAvailableTemplate(tplPath)], from the messages logged so far.  With
    a nil template and a nil error the [else] branch reads [t.ID] through
    the nil pointer, which panics.  The severity is passed on as
    [types.ToString] renders it, not lower-cased. *)
Definition logAvailableTemplate (tplPath : string) (log : list gologger.Event) : Ended :=
  match runner.parseTemplateFile r tplPath with
  | (_, Some err) =>
      Returned (log ++
        [gologger.Msgf gologger.Error
           ("Could not parse file '" +:+ tplPath +:+ "': " +:+ err +:+ runner.newline)])
  | (None, None) => Panicked log
  | (Some t, None) =>
      Returned (log ++
        [gologger.Msgf gologger.Print
           (runner.templateLogMsg r (templates.ID t)
              (runner.ToString r (templates.Info t !! "name"))
              (runner.ToString r (templates.Info t !! "author"))
              (runner.ToString r (templates.Info t !! "severity"))
            +:+ runner.newline)])
  end.

(** The nodes of a walk, one after the other, through a callback that
    returns nil or panics. *)
Fixpoint visitAll (callback : string -> godirwalk.Dirent -> list gologger.Event -> Ended)
    (nodes : list (string * godirwalk.Dirent)) (log : list gologger.Event) : Ended :=
  match nodes with
  | [] => Returned log
  | (path, d) :: rest =>
      match callback path d log with
      | Returned log' => visitAll callback rest log'
      | Panicked log' => Panicked log'
      end
  end.

(** [directoryWalker(fsPath, callback)] for a callback that returns nil
    (the one callback templates.go passes): the walk's error is handed on
    as it is. *)
Definition directoryWalker (fsPath : string)
    (callback : string -> godirwalk.Dirent -> list gologger.Event -> Ended)
    (log : list gologger.Event) : Walk :=
  match visitAll callback (Walked h fsPath) log with
  | Returned log' => WalkReturned log' (WalkError h fsPath)
  | Panicked log' => WalkPanicked log'
  end.

(** The callback of [listAvailableTemplates]: a directory other than the
    templates directory is announced, any other node is logged as a
    template when its path ends in ".yaml"; the callback returns nil. *)
Definition listCallback (cfg : Config) (path : string) (d : godirwalk.Dirent)
    (log : list gologger.Event) : Ended :=
  if godirwalk.IsDir d && negb (String.eqb path (TemplatesDirectory cfg)) then
    Returned (log ++
      [gologger.Msgf gologger.Print
         (runner.newline +:+ BoldBgBrightBlue h (godirwalk.Name d) +:+ ":"
          +:+ runner.newline +:+ runner.newline)])
  else if strings.HasSuffix path ".yaml" then logAvailableTemplate path log
  else Returned log.

(** [listAvailableTemplates()]. *)
Definition listAvailableTemplates : Ended :=
  match templatesConfig h with
  | None => Returned []
  | Some cfg =>
      if NotExist h (TemplatesDirectory cfg) then
        Returned
          [gologger.Msgf gologger.Error (TemplatesDirectory cfg +:+ " does not exists")]
      else
        let listing :=
          gologger.Msgf gologger.Print
            (runner.newline +:+ "Listing available v." +:+ CurrentVersion cfg
             +:+ " nuclei templates for " +:+ TemplatesDirectory cfg) in
        match directoryWalker (TemplatesDirectory cfg) (listCallback cfg) [listing] with
        | WalkPanicked log => Panicked log
        | WalkReturned log None => Returned log
        | WalkReturned log (Some err) =>
            Returned (log ++
              [gologger.Msgf gologger.Error
                 ("Could not find templates in directory '" +:+ TemplatesDirectory cfg
                  +:+ "': " +:+ err +:+ runner.newline)])
        end
  end.

End Methods.

End lister.

(** ** The execution core

    The matcher and extractor evaluators, the workflow engine and the
    orchestrator are not part of templates.go; they are embedded from
    their specification. *)

(** *** Data model *)
Module model.

(** Modelled from the spec: the Response View of the data model (the
    normalization layer's source is not among the files): status or answer
    code, named parts (body, headers or records, raw), byte length, elapsed
    time and the original request. *)
Record ResponseView := {
  status : Z;
  parts : gmap string string;
  byteLength : Z;
  elapsed : Z;
  request : string;
}.

(** Modelled from the spec: the AND/OR combinator of matchers and of
    request blocks. *)
Inductive Combinator := AND | OR.

(** Modelled from the spec: the kinds of matcher of the data model. *)
Inductive MatcherKind :=
  WordMatcher | RegexMatcher | StatusMatcher | BinaryMatcher | SizeMatcher
  | ExpressionMatcher.

(** Modelled from the spec: the Matcher of the data model (kind, target
    part, conditions, negate flag, internal combinator) with the name it
    is reported under. *)
Record Matcher := {
  matcherName : string;
  matcherKind : MatcherKind;
  matcherPart : string;
  conditions : list string;
  negate : bool;
  combinator : Combinator;
}.

(** Modelled from the spec: the kinds of extractor of the data model. *)
Inductive ExtractorKind :=
  RegexExtractor | JSONExtractor | KValExtractor | ExpressionExtractor.

(** Modelled from the spec: the Extractor of the data model (kind, target
    part, capture group selector, internal flag) with the variable name it
    captures into. *)
Record Extractor := {
  extractorName : string;
  extractorKind : ExtractorKind;
  extractorPart : string;
  group : Z;
  internal : bool;
}.

(** The variables of an Execution Context: name to value(s). *)
Abbreviation Variables := (gmap string (list string)).

End model.

(** *** Match Expression Evaluator *)
Module MatchEvaluator.
Import model.

Section Evaluator.

(** Modelled from the spec: the test of one condition of a matcher of the
    given kind against the extracted part (word containment, regular
    expression, status code, ...).  The spec names the kinds and leaves
    their tests to the protocol families, so the test is a parameter. *)
Variable conditionHolds : MatcherKind -> string -> ResponseView -> string -> bool.

(** Modelled from the spec: AND requires all results true, OR at least
    one. *)
Definition combine (c : Combinator) (results : list bool) : bool :=
  match c with
  | AND => forallb (fun b => b) results
  | OR => existsb (fun b => b) results
  end.

(** Modelled from the spec: the per-matcher step of [evaluate] (4.2; the
    evaluator's code is not among the sources).  The
    named part is extracted from the view; an unknown part short-circuits
    the matcher as non-firing.  A matcher with zero conditions never fires
    (data-model invariant).  Otherwise the conditions are combined with
    the matcher's internal combinator and [negate] is applied to the
    outcome. *)
Definition matcherFires (m : Matcher) (view : ResponseView) : bool :=
  match parts view !! matcherPart m with
  | None => false
  | Some corpus =>
      match conditions m with
      | [] => false
      | _ :: _ =>
          xorb (negate m)
            (combine (combinator m)
               (map (fun c => conditionHolds (matcherKind m) c view corpus)
                  (conditions m)))
      end
  end.

(** Modelled from the spec: what the loop of [evaluate] has gathered (the
    evaluator's code is not among the sources): each matcher's boolean and
    the names of those that fired, both in the order visited. *)
Record Gathered := { results : list bool; names : list string }.

(** Modelled from the spec: one iteration of [evaluate] over the matchers
    in declaration order. *)
Definition visit (view : ResponseView) (acc : Gathered) (m : Matcher) : Gathered :=
  if matcherFires m view
  then {| results := results acc ++ [true]; names := names acc ++ [matcherName m] |}
  else {| results := results acc ++ [false]; names := names acc |}.

(** Modelled from the spec:
    [evaluate(matchers, combinator, responseView) -> (fired, matchedNames)]
    (4.2): every matcher is evaluated, in declaration order, and the
    matchers' booleans are aggregated with the block-level combinator.
    (For an empty matcher list the spec fixes nothing; the aggregation is
    then that of the combinator over no results.) *)
Definition evaluate (matchers : list Matcher) (blockCombinator : Combinator)
    (view : ResponseView) : bool * list string :=
  let acc := fold_left (visit view) matchers {| results := []; names := [] |} in
  (combine blockCombinator (results acc), names acc).

End Evaluator.

End MatchEvaluator.

(** *** Extractor Evaluator *)
Module ExtractorEvaluator.
Import model.

Section Evaluator.

(** Modelled from the spec: the capture rule of an extractor (regular
    expression with its group, JSON path, key-value, expression) applied to
    the text of its target part: the captured values, in order; none when
    nothing matches.  The rules themselves are a parameter. *)
Variable capture : Extractor -> string -> list string.

(** Modelled from the spec: an extractor reads its target part and applies
    its capture rule (4.3; the evaluator's code is not among the sources).
    A part the view does not have gives no capture. *)
Definition captures (e : Extractor) (view : ResponseView) : list string :=
  match parts view !! extractorPart e with
  | None => []
  | Some corpus => capture e corpus
  end.

(** Modelled from the spec: one extractor's contribution to the result map.
    No capture leaves the map as it is; captures are appended, in order
    and without de-duplication, to the values already under the name. *)
Definition record (view : ResponseView) (acc : Variables) (e : Extractor) : Variables :=
  match captures e view with
  | [] => acc
  | v :: vs => <[extractorName e := default [] (acc !! extractorName e) ++ v :: vs]> acc
  end.

(** Modelled from the spec:
    [evaluate(extractors, responseView) -> map[name] -> []string] (4.3),
    the extractors taken in declaration order. *)
Definition evaluate (extractors : list Extractor) (view : ResponseView) : Variables :=
  fold_left (record view) extractors ∅.

(** All captures, in order, of the extractors named [n]. *)
Definition capturedUnder (view : ResponseView) (n : string)
    (extractors : list Extractor) : list string :=
  concat (map (fun e => captures e view)
            (List.filter (fun e => String.eqb (extractorName e) n) extractors)).

End Evaluator.

End ExtractorEvaluator.

(** *** Workflow Engine *)
Module WorkflowEngine.
Import model.

#[local] Unset Elimination Schemes.
(** Modelled from the spec: the Workflow Step of the data model: the
    sub-template it refers to, its stop-on-first-match flag and its
    on-match child steps (the flag has no part in the traversal of 4.4). *)
Inductive Step :=
  MkStep (template : string) (stopAtFirstMatch : bool) (children : list Step).
#[local] Set Elimination Schemes.

(** Modelled from the spec: how the Running state of a step ends (4.4):
    Fatal, or completed as Matched or Unmatched with the variables its
    extractors captured. *)
Inductive Outcome :=
  | Fatal
  | Completed (matched : bool) (extracted : Variables).

(** Modelled from the spec: what the engine does, in order (4.4): a step is
    visited and dispatched with the variables it can read, a step's
    variables are merged into the shared context, the workflow is aborted
    at a step. *)
Inductive Event :=
  | Visited (template : string) (visible : Variables)
  | Merged (template : string) (extracted : Variables)
  | Aborted (template : string).

(** Modelled from the spec: the state of one run: the shared Execution
    Context, the events so far and whether a Fatal transition has
    happened. *)
Record Run := { context : Variables; trace : list Event; aborted : bool }.

Section Engine.

(** Modelled from the spec: the dispatch of a sub-template through the
    Protocol Executor and the evaluators, under the bindings the step can
    read.  Network and templates are outside the engine, so the dispatch is
    a parameter. *)
Variable dispatch : string -> Variables -> Outcome.

(** Modelled from the spec: merging a step's extracted variables into the
    shared context; a name extracted again takes its new values. *)
Definition merge (extracted ctx : Variables) : Variables := extracted ∪ ctx.

(** Modelled from the spec: the state machine of 4.4 on one step (the
    engine's code is not among the sources).  The step is dispatched under
    the current context.  Matched: the on-match children run one after the
    other, then the step's extracted variables are merged into the shared
    context.  Unmatched: the children are skipped.  Fatal: the remainder of
    the workflow is aborted. *)
Fixpoint runStep (s : Step) (r : Run) {struct s} : Run :=
  if aborted r then r
  else
    match s with
    | MkStep template _ children =>
        let visited := trace r ++ [Visited template (context r)] in
        match dispatch template (context r) with
        | Fatal =>
            {| context := context r; trace := visited ++ [Aborted template];
               aborted := true |}
        | Completed false _ =>
            {| context := context r; trace := visited; aborted := false |}
        | Completed true extracted =>
            let r' :=
              fold_left (fun acc child => runStep child acc) children
                {| context := context r; trace := visited; aborted := false |} in
            if aborted r' then r'
            else {| context := merge extracted (context r');
                    trace := trace r' ++ [Merged template extracted];
                    aborted := false |}
        end
    end.

(** Modelled from the spec: the steps of one level, one after the other,
    left to right. *)
Definition runSteps (steps : list Step) (r : Run) : Run :=
  fold_left (fun acc s => runStep s acc) steps r.

(** Modelled from the spec: a run of a template's workflow tree from the
    seeded Execution Context. *)
Definition runWorkflow (seed : Variables) (steps : list Step) : Run :=
  runSteps steps {| context := seed; trace := []; aborted := false |}.

End Engine.

(** The context after the merges among [events], from [ctx]. *)
Definition replay (ctx : Variables) (events : list Event) : Variables :=
  fold_left
    (fun c ev => match ev with Merged _ extracted => merge extracted c | _ => c end)
    events ctx.

(** Every visit read exactly the context replayed from the events before
    it. *)
Definition readsOnlyPast (ctx : Variables) (events : list Event) : Prop :=
  forall pre template visible post,
    events = pre ++ Visited template visible :: post ->
    visible = replay ctx pre.

(** Every merge is of the variables of a step that was visited before and
    completed as Matched with them. *)
Definition mergesOnlyExecuted (dispatch : string -> Variables -> Outcome)
    (events : list Event) : Prop :=
  forall pre template extracted post,
    events = pre ++ Merged template extracted :: post ->
    exists visible,
      Visited template visible ∈ pre
      /\ dispatch template visible = Completed true extracted.

(** A run [r'] continues [r]: it adds events to the trace, its context is
    that of [r] with the added merges replayed, and the added events keep
    the two properties above. *)
Definition extends (dispatch : string -> Variables -> Outcome) (r r' : Run) : Prop :=
  exists new,
    trace r' = trace r ++ new
    /\ context r' = replay (context r) new
    /\ readsOnlyPast (context r) new
    /\ mergesOnlyExecuted dispatch new.

End WorkflowEngine.

(** *** Scan Orchestrator: retries *)
Module Orchestrator.
Import model.

(** Modelled from the spec: what [execute] of the Protocol Executor
    returns (4.1): a Response View, a typed network error (timeout,
    connection refused, DNS failure) or a protocol-level error (malformed
    response). *)
Inductive Executed :=
  | Response (view : ResponseView)
  | NetworkError (reason : string)
  | ProtocolError (reason : string).

(** Modelled from the spec: what the orchestrator makes of one request: the
    response goes to match evaluation, or the request is reported as a
    non-match (transport errors exhausted the retries), or as a failed
    match attempt (protocol-level error). *)
Inductive Report :=
  | Evaluate (view : ResponseView)
  | NonMatch
  | FailedMatchAttempt.

Section Retry.

(** Modelled from the spec: the small fixed retry count per request. *)
Variable retryCount : nat.

(** Modelled from the spec: the result of the [n]-th dispatch of a request
    by the Protocol Executor (the first dispatch is 0); the network is
    outside the orchestrator, so the results are a parameter. *)
Variable execute : nat -> Executed.

(** Modelled from the spec: dispatching a request for the [n]-th time with
    [retriesLeft] retries left (4.1, 7; the orchestrator's code is not
    among the sources): a network error is retried while
    retries are left and is a non-match once they are used up; a
    protocol-level error is not retried.  The result comes with the number
    of dispatches made. *)
Fixpoint attempt (retriesLeft n : nat) : Report * nat :=
  match execute n with
  | Response view => (Evaluate view, S n)
  | ProtocolError _ => (FailedMatchAttempt, S n)
  | NetworkError _ =>
      match retriesLeft with
      | O => (NonMatch, S n)
      | S retriesLeft' => attempt retriesLeft' (S n)
      end
  end.

(** Modelled from the spec: one request, from its first dispatch with all
    retries left. *)
Definition runRequest : Report * nat := attempt retryCount 0.

End Retry.

(** Modelled from the spec: the requests of a scan, one after the other;
    each request has its own sequence of dispatch results, and its report
    is added to those gathered so far. *)
Definition runRequests (retryCount : nat) (requests : list (nat -> Executed))
    : list (Report * nat) :=
  fold_left (fun reports execute => reports ++ [runRequest retryCount execute])
    requests [].

End Orchestrator.

(** ** Vocabulary of the statements about the runner *)

(** Whether the byte [c] occurs in [s]. *)
Fixpoint occurs (c : ascii) (s : string) : bool :=
  match s with
  | EmptyString => false
  | String d s' => Ascii.eqb d c || occurs c s'
  end.

(** [c] is one of the pieces [s] falls into when it is cut at every comma:
    [s] is a list of comma-free strings joined by commas, and [c] is one of
    them. *)
Definition comma_piece (c s : string) : Prop :=
  exists l r : list string,
    Forall (fun p => strings.Contains p "," = false) (l ++ c :: r)
    /\ s = strings.Join (l ++ c :: r) ",".

Module Load.

Section LoadingVocabulary.

Context {Value : Type}.
Variable r : runner.Runner Value.

(** The type filter: whether a template is kept for the requested kind. *)
Definition keptByType (ty : runner.TemplateType) (t : templates.Template Value) : bool :=
  if (ty =? runner.AdvancedWorkflow)%N then negb (String.eqb (templates.Code t) "")
  else if (ty =? runner.Workflows)%N then negb (length (templates.Workflows t) =? 0)%nat
  else if (ty =? runner.Template)%N then
    (length (templates.Workflows t) =? 0)%nat && String.eqb (templates.Code t) ""
  else true.

(** Whether the requested kind is one of the two that are counted. *)
Definition countedKind (ty : runner.TemplateType) : bool :=
  (ty =? runner.AdvancedWorkflow)%N || (ty =? runner.Workflows)%N.

(** The severity filter on a template: no severities were given, or the
    template's lower-cased severity matches one of them. *)
Definition passesSeverity (severities : list string) (t : templates.Template Value) : bool :=
  negb (0 <? length severities)%nat
  || runner.hasMatchingSeverity (runner.ToLower r)
       (runner.ToLower r (runner.ToString r (templates.Info t !! "severity")))
       severities.

(** The template a path contributes to the map, if any: it parses without
    error to a non-nil template that passes the type filter and the
    severity filter. *)
Definition accepts (severities : list string) (ty : runner.TemplateType) (p : string)
    : option (templates.Template Value) :=
  match runner.parseTemplateFile r p with
  | (Some t, None) =>
      if keptByType ty t && passesSeverity severities t then Some t else None
  | _ => None
  end.

(** Whether a path parses to a template of the requested kind. *)
Definition parsesToKind (ty : runner.TemplateType) (p : string) : bool :=
  match runner.parseTemplateFile r p with
  | (Some t, None) => keptByType ty t
  | _ => false
  end.

(** What a path adds to the counter. *)
Definition bump (ty : runner.TemplateType) (p : string) : Z :=
  if parsesToKind ty p && countedKind ty then 1 else 0.

(** The loop of [getParsedTemplatesFor] over [templatePaths], from any
    state. *)
Definition loadAll (severities : list string) (ty : runner.TemplateType)
    (templatePaths : list string) (st : runner.Loaded Value) : runner.Loaded Value :=
  fold_left (runner.loadOne r (0 <? length severities)%nat severities ty) templatePaths st.

(** The messages one path produces. *)
Definition emitted (severities : list string) (ty : runner.TemplateType) (p : string)
    : list gologger.Event :=
  runner.logged (loadAll severities ty [p]
    {| runner.parsedTemplates := ∅; runner.workflowCount := 0; runner.logged := [] |}).

End LoadingVocabulary.

End Load.

(** ** Further vocabulary: counting paths and messages *)
Module Tally.

(** Whether a message has the given level. *)
Definition hasLevel (l : gologger.Level) (e : gologger.Event) : bool :=
  match l, gologger.level e with
  | gologger.Info, gologger.Info
  | gologger.Warning, gologger.Warning
  | gologger.Error, gologger.Error
  | gologger.Print, gologger.Print => true
  | _, _ => false
  end.

Section Paths.

Context {Value : Type}.
Variable r : runner.Runner Value.

(** Whether parsing a path fails with an error. *)
Definition failsToParse (p : string) : bool :=
  match runner.parseTemplateFile r p with
  | (_, Some _) => true
  | _ => false
  end.

(** Whether a path parses to nil without an error. *)
Definition parsesToNil (p : string) : bool :=
  match runner.parseTemplateFile r p with
  | (None, None) => true
  | _ => false
  end.

(** Whether a path contributes a template to the map. *)
Definition accepted (severities : list string) (ty : runner.TemplateType) (p : string) : bool :=
  match Load.accepts r severities ty p with
  | Some _ => true
  | None => false
  end.

(** Whether the listing callback hands a node to [logAvailableTemplate]:
    it is not a directory other than the templates directory, and its path
    ends in ".yaml". *)
Definition listed (cfg : lister.Config) (node : string * godirwalk.Dirent) : bool :=
  negb (godirwalk.IsDir node.2
        && negb (String.eqb node.1 (lister.TemplatesDirectory cfg)))
  && strings.HasSuffix node.1 ".yaml".

(** Whether the listing callback announces a node as a directory. *)
Definition announced (cfg : lister.Config) (node : string * godirwalk.Dirent) : bool :=
  godirwalk.IsDir node.2 && negb (String.eqb node.1 (lister.TemplatesDirectory cfg)).

(** The IDs of the templates the paths contribute, in path order. *)
Definition acceptedIDs (severities : list string) (ty : runner.TemplateType)
    (paths : list string) : list string :=
  omap (fun p => templates.ID <$> Load.accepts r severities ty p) paths.

(** Accepted templates with one ID are one template. *)
Definition oneTemplatePerID (severities : list string) (ty : runner.TemplateType)
    (paths : list string) : Prop :=
  forall p q t t', p ∈ paths -> q ∈ paths ->
    Load.accepts r severities ty p = Some t ->
    Load.accepts r severities ty q = Some t' ->
    templates.ID t = templates.ID t' -> t = t'.

End Paths.

End Tally.

(** ** Sample inputs for the runner *)
Module Sample.

(** Two plain templates that share the ID "x". *)
Definition tplA : templates.Template string :=
  {| templates.ID := "x"; templates.Info := {[ "name" := "A" ]};
     templates.Workflows := []; templates.Code := "" |}.

Definition tplB : templates.Template string :=
  {| templates.ID := "x"; templates.Info := {[ "name" := "B" ]};
     templates.Workflows := []; templates.Code := "" |}.

(** A workflow of severity "Low", and an advanced workflow. *)
Definition wfLow : templates.Template string :=
  {| templates.ID := "wf"; templates.Info := {[ "severity" := "Low" ]};
     templates.Workflows := ["x"]; templates.Code := "" |}.

Definition advHigh : templates.Template string :=
  {| templates.ID := "adv"; templates.Info := {[ "severity" := "high" ]};
     templates.Workflows := []; templates.Code := "run()" |}.

(** A template directory: four files that parse, one that parses to nil,
    and every other path fails. *)
Definition Parse (file : string) : option (templates.Template string) * option string :=
  if String.eqb file "a.yaml" then (Some tplA, None)
  else if String.eqb file "b.yaml" then (Some tplB, None)
  else if String.eqb file "wf.yaml" then (Some wfLow, None)
  else if String.eqb file "adv.yaml" then (Some advHigh, None)
  else if String.eqb file "nil.yaml" then (None, None)
  else (None, Some "no such file").

(** A runner over that directory: [Info] values are plain strings (a
    missing key renders as the empty string), lower-casing is Go's on
    ASCII, and nothing is coloured. *)
Definition r : runner.Runner string :=
  {| runner.Parse := Parse;
     runner.ToString := default "";
     runner.ToLower := strings.ToLowerASCII;
     runner.BrightBlue := fun s => s;
     runner.Bold := fun s => s;
     runner.BrightYellow := fun s => s;
     runner.severityColors :=
       {[ "low" := "low"; "high" := "high"; "critical" := "critical" ]} |}.

End Sample.

(** ** Sample inputs for the listing *)
Module ListSample.

Definition cfg : lister.Config :=
  {| lister.TemplatesDirectory := "tpl"; lister.CurrentVersion := "8.1" |}.

Definition dir (name : string) : godirwalk.Dirent :=
  {| godirwalk.Name := name; godirwalk.IsDir := true |}.

Definition file (name : string) : godirwalk.Dirent :=
  {| godirwalk.Name := name; godirwalk.IsDir := false |}.

(** A templates directory that exists and holds a sub-directory, two
    templates, a file that is no template and a file that fails to
    parse. *)
Definition h : lister.Host :=
  {| lister.templatesConfig := Some cfg;
     lister.NotExist := fun _ => false;
     lister.BoldBgBrightBlue := fun s => s;
     lister.Walked := fun _ =>
       [("tpl", dir "tpl"); ("cves", dir "cves"); ("a.yaml", file "a.yaml");
        ("README.md", file "README.md"); ("wf.yaml", file "wf.yaml");
        ("broken.yaml", file "broken.yaml")];
     lister.WalkError := fun _ => None |}.

(** The same directory with a file that parses to nil. *)
Definition hNil : lister.Host :=
  {| lister.templatesConfig := Some cfg;
     lister.NotExist := fun _ => false;
     lister.BoldBgBrightBlue := fun s => s;
     lister.Walked := fun _ =>
       [("tpl", dir "tpl"); ("a.yaml", file "a.yaml"); ("nil.yaml", file "nil.yaml");
        ("wf.yaml", file "wf.yaml")];
     lister.WalkError := fun _ => None |}.

(** [Sample.r] with another parser. *)
Definition withParse (Parse : string -> option (templates.Template string) * option string)
    : runner.Runner string :=
  {| runner.Parse := Parse;
     runner.ToString := runner.ToString Sample.r;
     runner.ToLower := runner.ToLower Sample.r;
     runner.BrightBlue := runner.BrightBlue Sample.r;
     runner.Bold := runner.Bold Sample.r;
     runner.BrightYellow := runner.BrightYellow Sample.r;
     runner.severityColors := runner.severityColors Sample.r |}.

End ListSample.

(** ** Sample inputs for the execution core *)
Module CoreSample.
Import model.

(** Word matching for every kind: a condition holds when the part contains
    it as a substring. *)
Definition wordHolds (k : MatcherKind) (c : string) (view : ResponseView)
    (corpus : string) : bool :=
  strings.Contains corpus c.

(** A response with a body and a header part. *)
Definition okView : ResponseView :=
  {| status := 200;
     parts := {[ "body" := "admin login ok"; "header" := "Server: nginx" ]};
     byteLength := 14; elapsed := 3; request := "GET / HTTP/1.1" |}.

(** Matchers without conditions. *)
Definition emptyAnd : Matcher :=
  {| matcherName := "empty-and"; matcherKind := WordMatcher; matcherPart := "body";
     conditions := []; negate := false; combinator := AND |}.

Definition emptyNegatedOr : Matcher :=
  {| matcherName := "empty-not-or"; matcherKind := WordMatcher; matcherPart := "body";
     conditions := []; negate := true; combinator := OR |}.

(** Matchers with conditions. *)
Definition loginOr : Matcher :=
  {| matcherName := "login"; matcherKind := WordMatcher; matcherPart := "body";
     conditions := ["signin"; "login"]; negate := false; combinator := OR |}.

Definition apacheAnd : Matcher :=
  {| matcherName := "apache"; matcherKind := WordMatcher; matcherPart := "header";
     conditions := ["Server"; "Apache"]; negate := false; combinator := AND |}.

Definition notApache : Matcher :=
  {| matcherName := "not-apache"; matcherKind := WordMatcher; matcherPart := "header";
     conditions := ["Apache"]; negate := true; combinator := OR |}.

(** A capture rule for every kind: the extractor's own name, once, when
    the part contains it. *)
Definition ownName (e : Extractor) (corpus : string) : list string :=
  if strings.Contains corpus (extractorName e) then [extractorName e] else [].

Definition nginxExtractor : Extractor :=
  {| extractorName := "nginx"; extractorKind := RegexExtractor;
     extractorPart := "header"; group := 0; internal := false |}.

Definition tokenExtractor : Extractor :=
  {| extractorName := "token"; extractorKind := KValExtractor;
     extractorPart := "body"; group := 1; internal := true |}.

(** Dispatch results of three requests: refused twice and then answered,
    timing out for ever, and malformed from the start. *)
Definition refusedTwice (n : nat) : Orchestrator.Executed :=
  if (n <? 2)%nat then Orchestrator.NetworkError "connection refused"
  else Orchestrator.Response okView.

Definition alwaysTimeout (n : nat) : Orchestrator.Executed :=
  Orchestrator.NetworkError "timeout".

Definition malformed (n : nat) : Orchestrator.Executed :=
  Orchestrator.ProtocolError "malformed response".

(** Sub-templates of a workflow: "login" matches and extracts a token,
    "use" matches when it can read the token, any other matches and
    extracts nothing. *)
Definition dispatch (template : string) (visible : Variables) : WorkflowEngine.Outcome :=
  if String.eqb template "login" then
    WorkflowEngine.Completed true {[ "token" := ["abc"] ]}
  else if String.eqb template "use" then
    WorkflowEngine.Completed (bool_decide (is_Some (visible !! "token"))) ∅
  else WorkflowEngine.Completed true ∅.

(** "probe" with the child "use", then "login", then "use". *)
Definition threeSteps : list WorkflowEngine.Step :=
  [WorkflowEngine.MkStep "probe" false [WorkflowEngine.MkStep "use" false []];
   WorkflowEngine.MkStep "login" false [];
   WorkflowEngine.MkStep "use" false []].

End CoreSample.

(* ===================================================================== *)
(** * Part II: properties                                                 *)
(* ===================================================================== *)

(** ** Facts about the [strings] functions *)
Section StringFacts.

Lemma append_nil_l (r : string) : "" +:+ r = r.
Proof. reflexivity. Qed.

Lemma append_cons (c : ascii) (p r : string) :
  String c p +:+ r = String c (p +:+ r).
Proof. reflexivity. Qed.

Lemma substring_0_0 (s : string) : String.substring 0 0 s = "".
Proof. by destruct s. Qed.

Lemma substring_0_app (p r : string) :
  String.substring 0 (String.length p) (p +:+ r) = p.
Proof.
  induction p as [|c p IH]; simpl.
  - apply substring_0_0.
  - by rewrite IH.
Qed.

Lemma substring_0_split (n : nat) (s : string) :
  (n <= String.length s)%nat ->
  exists r, s = String.substring 0 n s +:+ r.
Proof.
  revert s; induction n as [|n IH]; intros s Hn.
  - exists s. by rewrite substring_0_0.
  - destruct s as [|c s]; simpl in *; [lia|].
    destruct (IH s) as [r Hr]; [lia|].
    exists r. rewrite append_cons. by f_equal.
Qed.

Lemma length_append (p r : string) :
  String.length (p +:+ r) = (String.length p + String.length r)%nat.
Proof.
  induction p as [|c p IH]; [done|].
  rewrite append_cons. simpl. by rewrite IH.
Qed.

(** [HasPrefix s p] holds exactly when [s] is [p] followed by something. *)
Lemma HasPrefix_iff (s p : string) :
  strings.HasPrefix s p = true <-> exists r, s = p +:+ r.
Proof.
  unfold strings.HasPrefix. rewrite andb_true_iff, Nat.leb_le, String.eqb_eq.
  split.
  - intros [Hlen Hsub]. destruct (substring_0_split _ _ Hlen) as [r Hr].
    exists r. by rewrite <- Hsub at 1.
  - intros [r ->]. split; [rewrite length_append; lia | apply substring_0_app].
Qed.

(** [Contains] with a one-byte needle looks for that byte. *)
Lemma Contains_byte (c : ascii) (s : string) :
  strings.Contains s (String c "") = occurs c s.
Proof.
  induction s as [|d s IH]; [done|].
  simpl. rewrite IH. f_equal.
  unfold strings.HasPrefix. simpl. rewrite substring_0_0. simpl.
  by destruct (Ascii.eqb d c).
Qed.

Lemma Join_cons2 (a b : string) (l : list string) (sep : string) :
  strings.Join (a :: b :: l) sep = a +:+ sep +:+ strings.Join (b :: l) sep.
Proof. reflexivity. Qed.

Lemma Split_not_nil (s : string) (sep : ascii) : strings.Split s sep <> [].
Proof.
  destruct s as [|c s]; simpl; [done|].
  destruct (Ascii.eqb c sep); [done|]. by destruct (strings.Split s sep).
Qed.

(** A string without the separator is its own single piece. *)
Lemma Split_no_sep (s : string) (sep : ascii) :
  occurs sep s = false -> strings.Split s sep = [s].
Proof.
  induction s as [|c s IH]; simpl; [done|].
  intros [Hc Hs]%orb_false_iff. by rewrite Hc, IH.
Qed.

(** No piece contains the separator. *)
Lemma Split_pieces (s : string) (sep : ascii) :
  Forall (fun p => occurs sep p = false) (strings.Split s sep).
Proof.
  induction s as [|c s IH]; simpl.
  - by constructor.
  - destruct (Ascii.eqb c sep) eqn:Hc.
    + by constructor.
    + destruct (strings.Split s sep) as [|w ws].
      * constructor; [|done]. simpl. by rewrite Hc.
      * inversion IH as [|? ? Hw Hws]; subst.
        constructor; [|done]. simpl. by rewrite Hc, Hw.
Qed.

(** Joining the pieces with the separator gives the string back. *)
Lemma Join_Split (s : string) (sep : ascii) :
  strings.Join (strings.Split s sep) (String sep "") = s.
Proof.
  induction s as [|c s IH]; simpl; [done|].
  destruct (Ascii.eqb_spec c sep) as [->|Hne].
  - pose proof (Split_not_nil s sep).
    destruct (strings.Split s sep) as [|w ws] eqn:E; [done|].
    rewrite Join_cons2, append_nil_l, append_cons, append_nil_l. by rewrite IH.
  - destruct (strings.Split s sep) as [|w ws] eqn:E.
    + by destruct (Split_not_nil s sep).
    + destruct ws as [|w' ws].
      * simpl in *. by subst.
      * rewrite Join_cons2, append_cons. by rewrite <- IH.
Qed.

Lemma Split_app_sep (a rest : string) (sep : ascii) :
  occurs sep a = false ->
  strings.Split (a +:+ String sep rest) sep = a :: strings.Split rest sep.
Proof.
  induction a as [|c a IH]; intros Ha.
  - rewrite append_nil_l. simpl. by rewrite Ascii.eqb_refl.
  - simpl in Ha. apply orb_false_iff in Ha as [Hc Ha].
    rewrite append_cons. simpl. by rewrite Hc, IH.
Qed.

(** Cutting a joined list of separator-free pieces gives the pieces. *)
Lemma Split_Join (parts : list string) (sep : ascii) :
  parts <> [] ->
  Forall (fun p => occurs sep p = false) parts ->
  strings.Split (strings.Join parts (String sep "")) sep = parts.
Proof.
  induction parts as [|a parts IH]; [done|]. intros _ Hall.
  inversion Hall as [|? ? Ha Hrest]; subst.
  destruct parts as [|b parts].
  - simpl. by apply Split_no_sep.
  - rewrite Join_cons2, append_cons, append_nil_l, Split_app_sep by done.
    by rewrite IH.
Qed.

Lemma lower_byte_idemp (c : ascii) :
  strings.lower_byte (strings.lower_byte c) = strings.lower_byte c.
Proof. destruct c as [[] [] [] [] [] [] [] []]; reflexivity. Qed.

Lemma lower_byte_comma (c : ascii) :
  Ascii.eqb (strings.lower_byte c) ","%char = Ascii.eqb c ","%char.
Proof. destruct c as [[] [] [] [] [] [] [] []]; reflexivity. Qed.

Lemma ToLowerASCII_idemp (s : string) :
  strings.ToLowerASCII (strings.ToLowerASCII s) = strings.ToLowerASCII s.
Proof. induction s; simpl; [done|]. by rewrite lower_byte_idemp, IHs. Qed.

Lemma occurs_comma_lower (s : string) :
  occurs ","%char (strings.ToLowerASCII s) = occurs ","%char s.
Proof. induction s; simpl; [done|]. by rewrite lower_byte_comma, IHs. Qed.

(** Lower-casing commutes with cutting at commas. *)
Lemma Split_lower (s : string) :
  strings.Split (strings.ToLowerASCII s) ","%char
  = strings.ToLowerASCII <$> strings.Split s ","%char.
Proof.
  induction s as [|c s IH]; simpl; [done|].
  rewrite lower_byte_comma, IH.
  destruct (Ascii.eqb c ","%char); [done|].
  by destruct (strings.Split s ","%char).
Qed.

End StringFacts.

(** ** [hasMatchingSeverity] *)

Lemma elem_of_Split_comma (c s : string) :
  c ∈ strings.Split s ","%char <-> comma_piece c s.
Proof.
  split.
  - intros (l & r & E)%list_elem_of_split. exists l, r. split.
    + rewrite <- E. eapply Forall_impl; [apply Split_pieces|].
      intros p Hp. by rewrite Contains_byte.
    + by rewrite <- E, Join_Split.
  - intros (l & r & Hall & ->). rewrite Split_Join.
    + apply elem_of_app. right. by left.
    + by destruct l.
    + eapply Forall_impl; [exact Hall|].
      intros p Hp. by rewrite <- Contains_byte.
Qed.

(** Both branches of the [if strings.Contains(s, ",")] build the pieces. *)
Lemma finalSeverities_Split (s : string) :
  runner.finalSeverities s = strings.Split s ","%char.
Proof.
  unfold runner.finalSeverities.
  destruct (strings.Contains s ",") eqn:E; [done|].
  rewrite Contains_byte in E. by rewrite Split_no_sep.
Qed.

Section Severity.

Variable ToLower : string -> string.

Lemma matchesAny_iff (ts : string) (l : list string) :
  runner.matchesAny ToLower ts l = true <->
  exists c, c ∈ l /\ ToLower c <> "" /\ strings.HasPrefix ts (ToLower c) = true.
Proof.
  induction l as [|c l IH]; simpl.
  - split; [done|]. intros (c & Hc & _). by apply elem_of_nil in Hc.
  - destruct (String.eqb_spec (ToLower c) "") as [Hemp|Hne]; simpl.
    + rewrite IH. split.
      * intros (c' & ? & ?). exists c'. split; [by right|done].
      * intros (c' & [->|?]%elem_of_cons & Hc' & ?); [done|]. by exists c'.
    + destruct (strings.HasPrefix ts (ToLower c)) eqn:Hp.
      * split; [|done]. intros _. exists c. split; [by left|done].
      * rewrite IH. split.
        -- intros (c' & ? & ?). exists c'. split; [by right|done].
        -- intros (c' & [->|?]%elem_of_cons & ? & Hc'); [congruence|].
           by exists c'.
Qed.

Lemma hasMatchingSeverity_pieces (ts : string) (allowed : list string) :
  runner.hasMatchingSeverity ToLower ts allowed = true <->
  exists s c, s ∈ allowed /\ c ∈ strings.Split s ","%char
    /\ ToLower c <> "" /\ strings.HasPrefix ts (ToLower c) = true.
Proof.
  induction allowed as [|s allowed IH]; simpl.
  - split; [done|]. intros (s & c & Hs & _). by apply elem_of_nil in Hs.
  - destruct (runner.matchesAny ToLower ts (runner.finalSeverities s)) eqn:E.
    + split; [|done]. intros _.
      apply matchesAny_iff in E as (c & Hc & ?).
      rewrite finalSeverities_Split in Hc. exists s, c.
      split; [by left|done].
    + rewrite IH. split.
      * intros (s' & c & ? & ?). exists s', c. split; [by right|done].
      * intros (s' & c & [->|?]%elem_of_cons & Hc & Hne & Hp).
        -- assert (runner.matchesAny ToLower ts (runner.finalSeverities s) = true);
             [|congruence].
           apply matchesAny_iff. exists c. by rewrite finalSeverities_Split.
        -- by exists s', c.
Qed.

End Severity.

(** With ASCII lower-casing, lower-casing an allowed entry beforehand
    changes nothing. *)
Lemma matchesAny_lower (ts s : string) :
  runner.matchesAny strings.ToLowerASCII ts
    (runner.finalSeverities (strings.ToLowerASCII s))
  = runner.matchesAny strings.ToLowerASCII ts (runner.finalSeverities s).
Proof.
  rewrite !finalSeverities_Split, Split_lower.
  induction (strings.Split s ","%char) as [|c l IH]; [done|].
  rewrite fmap_cons. simpl. by rewrite ToLowerASCII_idemp, IH.
Qed.

Lemma hasMatchingSeverity_lower (ts : string) (allowed : list string) :
  runner.hasMatchingSeverity strings.ToLowerASCII ts (strings.ToLowerASCII <$> allowed)
  = runner.hasMatchingSeverity strings.ToLowerASCII ts allowed.
Proof.
  induction allowed as [|s allowed IH]; [done|].
  rewrite fmap_cons. simpl. by rewrite matchesAny_lower, IH.
Qed.

(** C4.  [hasMatchingSeverity] returns true exactly when some allowed entry,
    cut at its commas, has a piece whose lower-casing is non-empty and is a
    prefix of the template severity.  In particular (with Go's ASCII
    lower-casing) the letter case of the allowed entries is irrelevant, the
    partial word "crit" matches "critical", and entries all of whose pieces
    lower-case to the empty string match nothing. *)
Theorem hasMatchingSeverity_spec :
  (forall (ToLower : string -> string) (ts : string) (allowed : list string),
     runner.hasMatchingSeverity ToLower ts allowed = true <->
     exists s c, s ∈ allowed /\ comma_piece c s /\ ToLower c <> ""
       /\ exists rest, ts = ToLower c +:+ rest)
  /\ (forall (ts : string) (allowed allowed' : list string),
        strings.ToLowerASCII <$> allowed = strings.ToLowerASCII <$> allowed' ->
        runner.hasMatchingSeverity strings.ToLowerASCII ts allowed
        = runner.hasMatchingSeverity strings.ToLowerASCII ts allowed')
  /\ runner.hasMatchingSeverity strings.ToLowerASCII "critical" ["crit"] = true
  /\ runner.hasMatchingSeverity strings.ToLowerASCII "critical" ["low,CRIT"] = true
  /\ (forall (ToLower : string -> string) (ts : string) (allowed : list string),
        (forall s c, s ∈ allowed -> comma_piece c s -> ToLower c = "") ->
        runner.hasMatchingSeverity ToLower ts allowed = false)
  /\ (forall ts : string,
        runner.hasMatchingSeverity strings.ToLowerASCII ts [""; ","; "high,,"]
        = strings.HasPrefix ts "high").
Proof.
  assert (Hiff : forall ToLower ts allowed,
    runner.hasMatchingSeverity ToLower ts allowed = true <->
    exists s c, s ∈ allowed /\ comma_piece c s /\ ToLower c <> ""
      /\ exists rest, ts = ToLower c +:+ rest).
  { intros ToLower ts allowed. rewrite hasMatchingSeverity_pieces.
    split; intros (s & c & Hs & Hc & Hne & Hp); exists s, c.
    - by rewrite <- elem_of_Split_comma, <- HasPrefix_iff.
    - by rewrite elem_of_Split_comma, HasPrefix_iff. }
  split; [exact Hiff|]. split; [|split; [|split; [|split]]].
  - intros ts allowed allowed' E.
    by rewrite <- (hasMatchingSeverity_lower ts allowed), E, hasMatchingSeverity_lower.
  - reflexivity.
  - reflexivity.
  - intros ToLower ts allowed Hemp.
    apply not_true_is_false. intros (s & c & Hs & Hc & Hne & _)%Hiff.
    by apply Hne, (Hemp s c).
  - intros ts. simpl. unfold runner.finalSeverities. simpl.
    change (String (strings.lower_byte "h") _) with "high".
    by destruct (strings.HasPrefix ts "high").
Qed.

(** ** [getParsedTemplatesFor] *)
Section Loading.

Context {Value : Type}.
Variable r : runner.Runner Value.

Local Abbreviation parseTemplateFile := (runner.parseTemplateFile r).
Local Abbreviation keptByType := (@Load.keptByType Value).
Local Abbreviation countedKind := Load.countedKind.
Local Abbreviation passesSeverity := (Load.passesSeverity r).
Local Abbreviation accepts := (Load.accepts r).
Local Abbreviation parsesToKind := (Load.parsesToKind r).
Local Abbreviation bump := (Load.bump r).
Local Abbreviation loadAll := (Load.loadAll r).
Local Abbreviation emitted := (Load.emitted r).

Lemma typeSwitch_kept ty (t : templates.Template Value) c :
  runner.typeSwitch ty t c =
  if keptByType ty t then Some (if countedKind ty then c + 1 else c) else None.
Proof.
  unfold runner.typeSwitch, Load.keptByType, Load.countedKind.
  destruct (ty =? runner.AdvancedWorkflow)%N eqn:E1; simpl.
  { by destruct (String.eqb (templates.Code t) ""). }
  destruct (ty =? runner.Workflows)%N eqn:E2; simpl.
  { by destruct (length (templates.Workflows t) =? 0)%nat. }
  destruct (ty =? runner.Template)%N eqn:E3; simpl; [|done].
  destruct (templates.Workflows t) as [|w ws]; simpl; [|done].
  by destruct (String.eqb (templates.Code t) "").
Qed.

Lemma parseTemplateFile_not_both p t err :
  parseTemplateFile p <> (Some t, Some err).
Proof.
  unfold runner.parseTemplateFile.
  by destruct (runner.Parse r p) as [[?|] [?|]].
Qed.

Variable severities : list string.
Variable ty : runner.TemplateType.

Local Abbreviation loadOne :=
  (runner.loadOne r (0 <? length severities)%nat severities ty).

Lemma parsedTemplates_loadOne st p :
  runner.parsedTemplates (loadOne st p) =
  match accepts severities ty p with
  | Some t => <[templates.ID t := t]> (runner.parsedTemplates st)
  | None => runner.parsedTemplates st
  end.
Proof.
  unfold runner.loadOne, Load.accepts, Load.passesSeverity.
  destruct (parseTemplateFile p) as [[t|] [err|]]; try done.
  rewrite typeSwitch_kept. destruct (keptByType ty t); simpl; [|done].
  by destruct (_ || _).
Qed.

Lemma workflowCount_loadOne st p :
  runner.workflowCount (loadOne st p) = runner.workflowCount st + bump ty p.
Proof.
  unfold runner.loadOne, Load.bump, Load.parsesToKind.
  destruct (parseTemplateFile p) as [[t|] [err|]]; simpl; try lia.
  rewrite typeSwitch_kept. destruct (keptByType ty t); simpl; [|lia].
  destruct (_ || _); simpl; destruct (countedKind ty); lia.
Qed.

Lemma logged_loadOne st p :
  runner.logged (loadOne st p) = runner.logged st ++ emitted severities ty p.
Proof.
  unfold Load.emitted, Load.loadAll, runner.loadOne. simpl.
  destruct (parseTemplateFile p) as [[t|] [err|]]; simpl;
    try (by rewrite ?app_nil_r).
  rewrite !typeSwitch_kept. destruct (keptByType ty t); simpl; [|by rewrite app_nil_r].
  by destruct (_ || _).
Qed.

Lemma loadAll_app pre post st :
  loadAll severities ty (pre ++ post) st
  = loadAll severities ty post (loadAll severities ty pre st).
Proof. unfold Load.loadAll. apply fold_left_app. Qed.

Lemma loadAll_cons p post st :
  loadAll severities ty (p :: post) st
  = loadAll severities ty post (loadOne st p).
Proof. reflexivity. Qed.

(** Two states with the same map and counter stay so, and log the same
    further messages. *)
Lemma loadAll_same paths st1 st2 :
  runner.parsedTemplates st1 = runner.parsedTemplates st2 ->
  runner.workflowCount st1 = runner.workflowCount st2 ->
  runner.parsedTemplates (loadAll severities ty paths st1)
    = runner.parsedTemplates (loadAll severities ty paths st2)
  /\ runner.workflowCount (loadAll severities ty paths st1)
    = runner.workflowCount (loadAll severities ty paths st2)
  /\ exists further,
       runner.logged (loadAll severities ty paths st1) = runner.logged st1 ++ further
       /\ runner.logged (loadAll severities ty paths st2) = runner.logged st2 ++ further.
Proof.
  revert st1 st2. induction paths as [|p paths IH]; intros st1 st2 Hm Hc.
  - repeat split; try done. exists []. by rewrite !app_nil_r.
  - rewrite !loadAll_cons.
    destruct (IH (loadOne st1 p) (loadOne st2 p))
      as (Hm' & Hc' & further & H1 & H2).
    + by rewrite !parsedTemplates_loadOne, Hm.
    + by rewrite !workflowCount_loadOne, Hc.
    + repeat split; try done. exists (emitted severities ty p ++ further).
      by rewrite H1, H2, !logged_loadOne, !app_assoc.
Qed.

(** The counter: every counted path adds one. *)
Lemma workflowCount_loadAll paths st :
  runner.workflowCount (loadAll severities ty paths st)
  = runner.workflowCount st + Z.of_nat (length (List.filter (fun p => bump ty p =? 1) paths)).
Proof.
  revert st. induction paths as [|p paths IH]; intros st.
  - simpl. lia.
  - rewrite loadAll_cons, IH, workflowCount_loadOne. simpl.
    assert (bump ty p = 0 \/ bump ty p = 1) as [E|E].
    { unfold Load.bump. destruct (_ && _); auto. }
    all: rewrite E; simpl; lia.
Qed.

(** The map: an entry is the last accepted template with that ID. *)
Lemma parsedTemplates_loadAll_last pre p post t st :
  accepts severities ty p = Some t ->
  (forall q t', q ∈ post -> accepts severities ty q = Some t' ->
     templates.ID t' <> templates.ID t) ->
  runner.parsedTemplates (loadAll severities ty (pre ++ p :: post) st) !! templates.ID t
  = Some t.
Proof.
  intros Hp Hpost. rewrite loadAll_app, loadAll_cons.
  set (st' := loadOne (loadAll severities ty pre st) p).
  assert (Hst' : runner.parsedTemplates st' !! templates.ID t = Some t).
  { unfold st'. rewrite parsedTemplates_loadOne, Hp. apply lookup_insert_eq. }
  clearbody st'. revert st' Hst'.
  induction post as [|q post IH]; intros st' Hst'; [done|].
  rewrite loadAll_cons. apply IH.
  - intros q' t' Hq'. apply Hpost. by right.
  - rewrite parsedTemplates_loadOne.
    destruct (accepts severities ty q) as [t'|] eqn:Hq; [|done].
    rewrite lookup_insert_ne; [done|]. apply (Hpost q); [by left|done].
Qed.

(** Every entry of the map comes from an accepted path (or was there at
    the start). *)
Lemma parsedTemplates_loadAll_origin paths st id t :
  runner.parsedTemplates (loadAll severities ty paths st) !! id = Some t ->
  runner.parsedTemplates st !! id = Some t
  \/ exists p, p ∈ paths /\ accepts severities ty p = Some t /\ templates.ID t = id.
Proof.
  revert st. induction paths as [|p paths IH]; intros st H; [by left|].
  rewrite loadAll_cons in H. apply IH in H as [H|(q & Hq & Hacc & Hid)].
  - rewrite parsedTemplates_loadOne in H.
    destruct (accepts severities ty p) as [t'|] eqn:Hp; [|by left].
    destruct (decide (templates.ID t' = id)) as [<-|Hne].
    + rewrite lookup_insert_eq in H. injection H as ->.
      right. exists p. split; [by left|done].
    + rewrite lookup_insert_ne in H by done. by left.
  - right. exists q. split; [by right|done].
Qed.

(** Every accepted path has an entry under its template's ID, held by an
    accepted template with that ID. *)
Lemma parsedTemplates_loadAll_covered paths st p t :
  p ∈ paths -> accepts severities ty p = Some t ->
  exists q t', q ∈ paths /\ accepts severities ty q = Some t'
    /\ templates.ID t' = templates.ID t
    /\ runner.parsedTemplates (loadAll severities ty paths st) !! templates.ID t = Some t'.
Proof.
  revert st p t. induction paths as [|q paths IH] using rev_ind; intros st p t Hin Hp.
  - by apply elem_of_nil in Hin.
  - rewrite loadAll_app. simpl. rewrite parsedTemplates_loadOne.
    destruct (accepts severities ty q) as [tq|] eqn:Hq.
    + destruct (decide (templates.ID tq = templates.ID t)) as [E|Hne].
      * exists q, tq. rewrite <- E, lookup_insert_eq.
        split; [apply elem_of_app; right; by left|done].
      * apply elem_of_app in Hin as [Hin|Hin%list_elem_of_singleton];
          [|congruence].
        destruct (IH st p t Hin Hp) as (q' & t' & Hq' & Hacc & Hid & Hl).
        exists q', t'. rewrite lookup_insert_ne by done.
        split; [apply elem_of_app; by left|done].
    + apply elem_of_app in Hin as [Hin|Hin%list_elem_of_singleton];
        [|congruence].
      destruct (IH st p t Hin Hp) as (q' & t' & Hq' & Hacc & Hid & Hl).
      exists q', t'. split; [apply elem_of_app; by left|done].
Qed.

End Loading.

(** Reading the loop of [getParsedTemplatesFor] as [Load.loadAll]. *)
Ltac fold_loadAll :=
  repeat match goal with
  | |- context [fold_left (runner.loadOne ?r ?b ?sev ?ty) ?l ?st] =>
      change (fold_left (runner.loadOne r b sev ty) l st)
        with (Load.loadAll r sev ty l st)
  end.

(** The counter stays between zero and the number of paths. *)
Lemma workflowCount_bounds {Value : Type} (r : runner.Runner Value)
    (templatePaths severities : list string) (templateType : runner.TemplateType) :
  0 <= runner.workflowCount
         (runner.getParsedTemplatesFor r templatePaths severities templateType)
    <= Z.of_nat (length templatePaths).
Proof.
  unfold runner.getParsedTemplatesFor. fold_loadAll.
  rewrite workflowCount_loadAll. simpl.
  pose proof (List.filter_length_le
                (fun p => Load.bump r templateType p =? 1) templatePaths).
  lia.
Qed.

(** C5.  Every template in the returned map passes the requested type
    filter: for [Template] it has no workflows and no code, for [Workflows]
    at least one workflow, for [AdvancedWorkflow] a non-empty code block. *)
Theorem getParsedTemplatesFor_type_filter {Value : Type} (r : runner.Runner Value)
    (templatePaths severities : list string) (templateType : runner.TemplateType)
    (id : string) (t : templates.Template Value) :
  runner.parsedTemplates
    (runner.getParsedTemplatesFor r templatePaths severities templateType) !! id
    = Some t ->
  (templateType = runner.Template ->
     length (templates.Workflows t) = 0%nat /\ templates.Code t = "")
  /\ (templateType = runner.Workflows -> (0 < length (templates.Workflows t))%nat)
  /\ (templateType = runner.AdvancedWorkflow -> templates.Code t <> "").
Proof.
  intros H. apply parsedTemplates_loadAll_origin in H as [H|(p & _ & Hacc & _)].
  { simpl in H. by rewrite lookup_empty in H. }
  unfold Load.accepts in Hacc.
  destruct (runner.parseTemplateFile r p) as [[t'|] [err|]]; try done.
  destruct (Load.keptByType templateType t') eqn:Hk; simpl in Hacc; [|done].
  destruct (Load.passesSeverity _ _ _); [|done]. injection Hacc as ->.
  unfold Load.keptByType in Hk. split; [|split]; intros ->; simpl in Hk.
  - by apply andb_true_iff in Hk as [?%Nat.eqb_eq ?%String.eqb_eq].
  - apply negb_true_iff, Nat.eqb_neq in Hk. lia.
  - by apply negb_true_iff, String.eqb_neq in Hk.
Qed.

Lemma getParsedTemplatesFor_type_filter_witness :
  (runner.Workflows = runner.Template ->
     length (templates.Workflows Sample.wfLow) = 0%nat
     /\ templates.Code Sample.wfLow = "")
  /\ (runner.Workflows = runner.Workflows ->
        (0 < length (templates.Workflows Sample.wfLow))%nat)
  /\ (runner.Workflows = runner.AdvancedWorkflow ->
        templates.Code Sample.wfLow <> "").
Proof.
  apply (getParsedTemplatesFor_type_filter Sample.r
           ["a.yaml"; "wf.yaml"; "adv.yaml"; "gone.yaml"] ["low"] runner.Workflows "wf").
  vm_compute. reflexivity.
Defined.

(** C6.  For the two workflow kinds, [workflowCount] is the number of paths
    that parse to a template of the requested kind, whatever the severity
    filter says; a workflow the severity filter excludes is therefore still
    counted, and the counter can exceed the size of the returned map. *)
Theorem workflowCount_counts_before_severity :
  (forall (Value : Type) (r : runner.Runner Value)
      (templatePaths severities : list string) (templateType : runner.TemplateType),
      templateType = runner.Workflows \/ templateType = runner.AdvancedWorkflow ->
      runner.workflowCount
        (runner.getParsedTemplatesFor r templatePaths severities templateType)
      = Z.of_nat (length (List.filter (Load.parsesToKind r templateType) templatePaths)))
  /\ (Load.accepts Sample.r ["high"] runner.Workflows "wf.yaml" = None
      /\ runner.workflowCount
           (runner.getParsedTemplatesFor Sample.r ["wf.yaml"] ["high"] runner.Workflows)
         = 1
      /\ size (runner.parsedTemplates
           (runner.getParsedTemplatesFor Sample.r ["wf.yaml"] ["high"] runner.Workflows))
         = 0%nat)
  /\ (Load.accepts Sample.r ["low"] runner.AdvancedWorkflow "adv.yaml" = None
      /\ runner.workflowCount
           (runner.getParsedTemplatesFor Sample.r ["adv.yaml"] ["low"]
              runner.AdvancedWorkflow) = 1
      /\ size (runner.parsedTemplates
           (runner.getParsedTemplatesFor Sample.r ["adv.yaml"] ["low"]
              runner.AdvancedWorkflow)) = 0%nat).
Proof.
  split; [|split; repeat split; reflexivity].
  intros Value r paths severities ty Hty.
  unfold runner.getParsedTemplatesFor. fold_loadAll.
  rewrite workflowCount_loadAll. simpl.
  rewrite Z.add_0_l. do 2 f_equal. apply List.filter_ext. intros p. unfold Load.bump.
  assert (Load.countedKind ty = true) as -> by (by destruct Hty as [-> | ->]).
  by destruct (Load.parsesToKind r ty p).
Qed.

Lemma workflowCount_counts_before_severity_witness :
  runner.workflowCount
    (runner.getParsedTemplatesFor Sample.r
       ["wf.yaml"; "a.yaml"; "wf.yaml"; "gone.yaml"] ["high"] runner.Workflows) = 2.
Proof.
  rewrite (proj1 workflowCount_counts_before_severity string Sample.r
             ["wf.yaml"; "a.yaml"; "wf.yaml"; "gone.yaml"] ["high"] runner.Workflows).
  - reflexivity.
  - left. reflexivity.
Defined.

(** C3, as stated, fails where two paths parse to templates with one ID:
    "a.yaml" parses to [tplA], which passes both filters, yet the map holds
    [tplB] (parsed later from "b.yaml") under that ID, and not [tplA]. *)
Lemma map_contains_every_accepted_template_fails :
  "a.yaml" ∈ ["a.yaml"; "b.yaml"]
  /\ runner.parseTemplateFile Sample.r "a.yaml" = (Some Sample.tplA, None)
  /\ Load.keptByType runner.Template Sample.tplA = true
  /\ Load.passesSeverity Sample.r [] Sample.tplA = true
  /\ runner.parsedTemplates
       (runner.getParsedTemplatesFor Sample.r ["a.yaml"; "b.yaml"] [] runner.Template)
       !! templates.ID Sample.tplA = Some Sample.tplB
  /\ runner.parsedTemplates
       (runner.getParsedTemplatesFor Sample.r ["a.yaml"; "b.yaml"] [] runner.Template)
       !! templates.ID Sample.tplA <> Some Sample.tplA.
Proof.
  split; [by left|]. do 4 (split; [reflexivity|]).
  assert (E : runner.parsedTemplates
       (runner.getParsedTemplatesFor Sample.r ["a.yaml"; "b.yaml"] [] runner.Template)
       !! templates.ID Sample.tplA = Some Sample.tplB) by reflexivity.
  rewrite E. intros H. discriminate H.
Qed.

(** C3, amended.  A path whose parsing fails only adds its warning to the
    log: the map, the counter and every other message are those of the
    list without that path, so the paths after it are processed as if it
    were not there.  The map has an entry under the ID of every accepted
    template (parsed without error, kept by the type filter and by the
    severity filter): that entry is the template itself when no later
    accepted template has its ID, and in any case an accepted template with
    that ID. *)
Theorem getParsedTemplatesFor_skips_failed_paths {Value : Type}
    (r : runner.Runner Value)
    (severities : list string) (templateType : runner.TemplateType) :
  (forall (pre post : list string) (bad err : string),
      runner.parseTemplateFile r bad = (None, Some err) ->
      runner.parsedTemplates
        (runner.getParsedTemplatesFor r (pre ++ bad :: post) severities templateType)
      = runner.parsedTemplates
          (runner.getParsedTemplatesFor r (pre ++ post) severities templateType)
      /\ runner.workflowCount
           (runner.getParsedTemplatesFor r (pre ++ bad :: post) severities templateType)
         = runner.workflowCount
             (runner.getParsedTemplatesFor r (pre ++ post) severities templateType)
      /\ exists further : list gologger.Event,
           runner.logged
             (runner.getParsedTemplatesFor r (pre ++ post) severities templateType)
           = runner.logged (runner.getParsedTemplatesFor r pre severities templateType)
             ++ further
           /\ runner.logged
                (runner.getParsedTemplatesFor r (pre ++ bad :: post) severities
                   templateType)
              = runner.logged (runner.getParsedTemplatesFor r pre severities templateType)
                ++ [gologger.Msgf gologger.Warning
                      ("Could not parse file '" +:+ bad +:+ "': " +:+ err
                       +:+ runner.newline)]
                ++ further)
  /\ (forall (pre post : list string) (p : string) (t : templates.Template Value),
        Load.accepts r severities templateType p = Some t ->
        (forall q t', q ∈ post ->
           Load.accepts r severities templateType q = Some t' ->
           templates.ID t' <> templates.ID t) ->
        runner.parsedTemplates
          (runner.getParsedTemplatesFor r (pre ++ p :: post) severities templateType)
          !! templates.ID t = Some t)
  /\ (forall (templatePaths : list string) (p : string) (t : templates.Template Value),
        p ∈ templatePaths ->
        Load.accepts r severities templateType p = Some t ->
        exists q t', q ∈ templatePaths
          /\ Load.accepts r severities templateType q = Some t'
          /\ templates.ID t' = templates.ID t
          /\ runner.parsedTemplates
               (runner.getParsedTemplatesFor r templatePaths severities templateType)
               !! templates.ID t = Some t').
Proof.
  unfold runner.getParsedTemplatesFor.
  set (st0 := {| runner.parsedTemplates := ∅; runner.workflowCount := 0;
                 runner.logged := [runner.loadingMsg templateType] |}).
  split; [|split].
  - intros pre post bad err Hbad. fold_loadAll.
    rewrite !loadAll_app, loadAll_cons.
    set (st := Load.loadAll r severities templateType pre st0).
    assert (Hone : runner.loadOne r (0 <? length severities)%nat severities
                     templateType st bad
                   = {| runner.parsedTemplates := runner.parsedTemplates st;
                        runner.workflowCount := runner.workflowCount st;
                        runner.logged := runner.logged st ++
                          [gologger.Msgf gologger.Warning
                             ("Could not parse file '" +:+ bad +:+ "': " +:+ err
                              +:+ runner.newline)] |}).
    { unfold runner.loadOne. by rewrite Hbad. }
    rewrite Hone.
    match goal with |- context [Load.loadAll _ _ _ post ?s] =>
      destruct (loadAll_same r severities templateType post s st)
        as (Hm & Hc & further & H1 & H2); [done..|]
    end.
    split; [done|]. split; [done|]. exists further. split; [done|].
    rewrite H1. simpl. by rewrite <- !app_assoc.
  - intros pre post p t Hp Hpost. fold_loadAll.
    by apply (parsedTemplates_loadAll_last r severities templateType pre p post t).
  - intros paths p t Hin Hp. fold_loadAll.
    by apply (parsedTemplates_loadAll_covered r severities templateType paths _ p t).
Qed.

Lemma getParsedTemplatesFor_skips_failed_paths_witness :
  runner.parsedTemplates
    (runner.getParsedTemplatesFor Sample.r
       (["a.yaml"] ++ "gone.yaml" :: ["wf.yaml"; "adv.yaml"])
       ["low"; "HIGH"] runner.Workflows)
  = runner.parsedTemplates
      (runner.getParsedTemplatesFor Sample.r (["a.yaml"] ++ ["wf.yaml"; "adv.yaml"])
         ["low"; "HIGH"] runner.Workflows).
Proof.
  apply (proj1 (getParsedTemplatesFor_skips_failed_paths Sample.r ["low"; "HIGH"]
                  runner.Workflows)
           ["a.yaml"] ["wf.yaml"; "adv.yaml"] "gone.yaml" "no such file").
  reflexivity.
Defined.

(** ** Match Expression Evaluator *)
Section MatchFacts.
Import model.

Variable conditionHolds : MatcherKind -> string -> ResponseView -> string -> bool.
Variable view : ResponseView.

Local Abbreviation matcherFires := (MatchEvaluator.matcherFires conditionHolds).
Local Abbreviation visit := (MatchEvaluator.visit conditionHolds view).

Lemma existsb_map_true {A : Type} (f : A -> bool) (l : list A) :
  existsb (fun b => b) (map f l) = true <-> exists c, c ∈ l /\ f c = true.
Proof.
  rewrite existsb_exists. split.
  - intros (b & (c & <- & Hc)%in_map_iff & Hb). exists c.
    by rewrite list_elem_of_In.
  - intros (c & Hc%list_elem_of_In & Hf). exists (f c).
    split; [by apply in_map|done].
Qed.

Lemma forallb_map_true {A : Type} (f : A -> bool) (l : list A) :
  forallb (fun b => b) (map f l) = true <-> forall c, c ∈ l -> f c = true.
Proof.
  rewrite forallb_forall. split.
  - intros H c Hc%list_elem_of_In. apply H. by apply in_map.
  - intros H b (c & <- & Hc%list_elem_of_In)%in_map_iff. by apply H.
Qed.

(** The loop gathers every matcher's boolean, and the names of those that
    fired, in the order of the list. *)
Lemma fold_visit (matchers : list Matcher) (acc : MatchEvaluator.Gathered) :
  fold_left visit matchers acc
  = {| MatchEvaluator.results :=
         MatchEvaluator.results acc ++ map (fun m => matcherFires m view) matchers;
       MatchEvaluator.names :=
         MatchEvaluator.names acc
         ++ map matcherName (List.filter (fun m => matcherFires m view) matchers) |}.
Proof.
  revert acc. induction matchers as [|m matchers IH]; intros acc; simpl.
  - rewrite !app_nil_r. by destruct acc.
  - rewrite IH. unfold MatchEvaluator.visit.
    destruct (matcherFires m view); simpl; by rewrite <- ?app_assoc.
Qed.

Lemma filter_sublist {A : Type} (f : A -> bool) (l : list A) :
  sublist (List.filter f l) l.
Proof.
  induction l as [|x l IH]; simpl; [constructor|].
  destruct (f x); by constructor.
Qed.

Lemma map_sublist {A B : Type} (f : A -> B) (l k : list A) :
  sublist l k -> sublist (map f l) (map f k).
Proof. induction 1; simpl; by constructor. Qed.

End MatchFacts.




(** C2.  A matcher whose condition list is empty does not fire, whatever
    its combinator, its negate flag and the view; and in a block it adds
    no name to [matchedNames]. *)
Theorem empty_conditions_never_fire :
  (forall (conditionHolds : model.MatcherKind -> string -> model.ResponseView -> string -> bool)
      (name part : string) (kind : model.MatcherKind) (neg : bool)
      (comb : model.Combinator) (view : model.ResponseView),
      MatchEvaluator.matcherFires conditionHolds
        {| model.matcherName := name; model.matcherKind := kind;
           model.matcherPart := part; model.conditions := [];
           model.negate := neg; model.combinator := comb |} view = false)
  /\ (forall (conditionHolds : model.MatcherKind -> string -> model.ResponseView -> string -> bool)
        (m : model.Matcher) (before after : list model.Matcher)
        (blockCombinator : model.Combinator) (view : model.ResponseView),
        model.conditions m = [] ->
        snd (MatchEvaluator.evaluate conditionHolds (before ++ m :: after)
               blockCombinator view)
        = snd (MatchEvaluator.evaluate conditionHolds (before ++ after)
                 blockCombinator view)).
Proof.
  split.
  - intros holds name part kind neg comb view. unfold MatchEvaluator.matcherFires.
    simpl. by destruct (model.parts view !! part).
  - intros holds m before after comb view Hm. unfold MatchEvaluator.evaluate.
    rewrite !fold_visit. simpl.
    rewrite !List.filter_app. simpl.
    assert (MatchEvaluator.matcherFires holds m view = false) as ->; [|done].
    unfold MatchEvaluator.matcherFires. rewrite Hm.
    by destruct (model.parts view !! model.matcherPart m).
Qed.

Lemma empty_conditions_never_fire_witness :
  snd (MatchEvaluator.evaluate CoreSample.wordHolds
         ([CoreSample.loginOr] ++ CoreSample.emptyNegatedOr :: [CoreSample.notApache])
         model.OR CoreSample.okView)
  = snd (MatchEvaluator.evaluate CoreSample.wordHolds
           ([CoreSample.loginOr] ++ [CoreSample.notApache])
           model.OR CoreSample.okView).
Proof.
  apply (proj2 empty_conditions_never_fire CoreSample.wordHolds
           CoreSample.emptyNegatedOr [CoreSample.loginOr] [CoreSample.notApache]
           model.OR CoreSample.okView).
  reflexivity.
Defined.

(** C8.  [matchedNames] is the list of the names of the matchers that
    fired, in the order in which the matchers are declared: it is the
    declared list, filtered by firing, mapped to names, hence a sublist of
    the declared names. *)
Theorem matchedNames_in_declaration_order
    (conditionHolds : model.MatcherKind -> string -> model.ResponseView -> string -> bool)
    (matchers : list model.Matcher) (blockCombinator : model.Combinator)
    (view : model.ResponseView) :
  snd (MatchEvaluator.evaluate conditionHolds matchers blockCombinator view)
  = map model.matcherName
      (List.filter (fun m => MatchEvaluator.matcherFires conditionHolds m view) matchers)
  /\ sublist (snd (MatchEvaluator.evaluate conditionHolds matchers blockCombinator view))
       (map model.matcherName matchers).
Proof.
  assert (E : snd (MatchEvaluator.evaluate conditionHolds matchers blockCombinator view)
              = map model.matcherName
                  (List.filter (fun m => MatchEvaluator.matcherFires conditionHolds m view)
                     matchers)).
  { unfold MatchEvaluator.evaluate. by rewrite fold_visit. }
  split; [exact E|]. rewrite E.
  apply map_sublist, filter_sublist.
Qed.

(** ** Extractor Evaluator *)
Section ExtractFacts.
Import model.

Variable capture : Extractor -> string -> list string.
Variable view : ResponseView.

Local Abbreviation captures := (ExtractorEvaluator.captures capture).
Local Abbreviation record := (ExtractorEvaluator.record capture view).
Local Abbreviation capturedUnder := (ExtractorEvaluator.capturedUnder capture view).

(** The entry under a name after the loop: the old values followed by
    what the extractors of that name captured, and the old entry (absent
    or not) when they captured nothing. *)
Lemma fold_record_lookup (extractors : list Extractor) (acc : Variables) (n : string) :
  fold_left record extractors acc !! n
  = match capturedUnder n extractors with
    | [] => acc !! n
    | v :: vs => Some (default [] (acc !! n) ++ v :: vs)
    end.
Proof.
  revert acc. induction extractors as [|e extractors IH]; intros acc; [done|].
  simpl. rewrite IH. unfold ExtractorEvaluator.capturedUnder. simpl.
  unfold ExtractorEvaluator.record.
  destruct (String.eqb_spec (extractorName e) n) as [<-|Hne]; simpl.
  - destruct (captures e view) as [|v vs] eqn:E; simpl; [done|].
    rewrite lookup_insert_eq. simpl.
    destruct (concat _) as [|w ws]; [by rewrite app_nil_r|].
    by rewrite <- app_assoc.
  - destruct (captures e view) as [|v vs] eqn:E; simpl; [done|].
    by rewrite lookup_insert_ne.
Qed.

End ExtractFacts.



(** ** Orchestrator: retries *)
Section RetryFacts.

Variable execute : nat -> Orchestrator.Executed.

(** [k] network errors in a row use up [k] retries. *)
Lemma attempt_after_network_errors (k retriesLeft n : nat) :
  (forall i, (i < k)%nat -> exists reason, execute (n + i) = Orchestrator.NetworkError reason) ->
  (k <= retriesLeft)%nat ->
  Orchestrator.attempt execute retriesLeft n
  = Orchestrator.attempt execute (retriesLeft - k) (n + k).
Proof.
  revert retriesLeft n. induction k as [|k IH]; intros retriesLeft n Herr Hk.
  - by rewrite Nat.sub_0_r, Nat.add_0_r.
  - destruct retriesLeft as [|retriesLeft]; [lia|].
    destruct (Herr 0%nat) as [reason E]; [lia|]. rewrite Nat.add_0_r in E.
    simpl. rewrite E, IH.
    + by replace (S n + k)%nat with (n + S k)%nat by lia.
    + intros i Hi. destruct (Herr (S i)) as [reason' E']; [lia|].
      exists reason'. by replace (S n + i)%nat with (n + S i)%nat by lia.
    + lia.
Qed.

Lemma attempt_bounded (retriesLeft n : nat) :
  (snd (Orchestrator.attempt execute retriesLeft n) <= S (n + retriesLeft))%nat.
Proof.
  revert n. induction retriesLeft as [|retriesLeft IH]; intros n; simpl.
  - destruct (execute n); simpl; lia.
  - destruct (execute n); simpl; try lia.
    specialize (IH (S n)). lia.
Qed.

End RetryFacts.

Lemma runRequests_map (retryCount : nat) (requests : list (nat -> Orchestrator.Executed)) :
  Orchestrator.runRequests retryCount requests
  = map (Orchestrator.runRequest retryCount) requests.
Proof.
  unfold Orchestrator.runRequests.
  assert (H : forall acc,
    fold_left (fun reports execute => reports ++ [Orchestrator.runRequest retryCount execute])
      requests acc = acc ++ map (Orchestrator.runRequest retryCount) requests).
  { induction requests as [|e requests IH]; intros acc; simpl.
    - by rewrite app_nil_r.
    - by rewrite IH, <- app_assoc. }
  apply H.
Qed.

(** C10.  A request is dispatched at most [retryCount + 1] times.  Network
    errors are retried: after [k <= retryCount] of them, a response is
    evaluated normally and a protocol-level error is a failed match attempt
    with no further dispatch (so a protocol error on the first dispatch is
    never retried); when every dispatch fails with a network error the
    request is a non-match after [retryCount + 1] dispatches.  The scan
    goes on: every request of the list gets its own report. *)
Theorem transport_errors_retried_protocol_errors_not :
  (forall (retryCount : nat) (execute : nat -> Orchestrator.Executed),
      (snd (Orchestrator.runRequest retryCount execute) <= S retryCount)%nat)
  /\ (forall (retryCount : nat) (execute : nat -> Orchestrator.Executed),
        (forall n, (n <= retryCount)%nat ->
           exists reason, execute n = Orchestrator.NetworkError reason) ->
        Orchestrator.runRequest retryCount execute
        = (Orchestrator.NonMatch, S retryCount))
  /\ (forall (retryCount : nat) (execute : nat -> Orchestrator.Executed)
        (k : nat) (view : model.ResponseView),
        (k <= retryCount)%nat ->
        (forall n, (n < k)%nat ->
           exists reason, execute n = Orchestrator.NetworkError reason) ->
        execute k = Orchestrator.Response view ->
        Orchestrator.runRequest retryCount execute = (Orchestrator.Evaluate view, S k))
  /\ (forall (retryCount : nat) (execute : nat -> Orchestrator.Executed)
        (k : nat) (reason : string),
        (k <= retryCount)%nat ->
        (forall n, (n < k)%nat ->
           exists reason', execute n = Orchestrator.NetworkError reason') ->
        execute k = Orchestrator.ProtocolError reason ->
        Orchestrator.runRequest retryCount execute
        = (Orchestrator.FailedMatchAttempt, S k))
  /\ (forall (retryCount : nat) (requests : list (nat -> Orchestrator.Executed)),
        Orchestrator.runRequests retryCount requests
        = map (Orchestrator.runRequest retryCount) requests).
Proof.
  split; [|split; [|split; [|split]]].
  - intros retryCount execute. apply (attempt_bounded execute retryCount 0).
  - intros retryCount execute Herr. unfold Orchestrator.runRequest.
    rewrite (attempt_after_network_errors execute retryCount retryCount 0);
      [|intros i Hi; apply Herr; lia|lia].
    rewrite Nat.sub_diag. simpl.
    destruct (Herr retryCount) as [reason ->]; done.
  - intros retryCount execute k view Hk Herr Hok. unfold Orchestrator.runRequest.
    rewrite (attempt_after_network_errors execute k retryCount 0);
      [|intros i Hi; by apply Herr|done].
    simpl. destruct (retryCount - k)%nat; simpl; by rewrite Hok.
  - intros retryCount execute k reason Hk Herr Hbad. unfold Orchestrator.runRequest.
    rewrite (attempt_after_network_errors execute k retryCount 0);
      [|intros i Hi; by apply Herr|done].
    simpl. destruct (retryCount - k)%nat; simpl; by rewrite Hbad.
  - apply runRequests_map.
Qed.

Lemma transport_errors_retried_protocol_errors_not_witness :
  Orchestrator.runRequest 3 CoreSample.refusedTwice
  = (Orchestrator.Evaluate CoreSample.okView, 3%nat).
Proof.
  apply (proj1 (proj2 (proj2 transport_errors_retried_protocol_errors_not))
           3%nat CoreSample.refusedTwice 2%nat CoreSample.okView).
  - lia.
  - intros n Hn. exists "connection refused".
    destruct n as [|[|n]]; [reflexivity|reflexivity|lia].
  - reflexivity.
Defined.

(** ** Workflow Engine *)
Section WorkflowFacts.
Import model WorkflowEngine.

Variable dispatch : string -> Variables -> Outcome.

Local Abbreviation runStep := (WorkflowEngine.runStep dispatch).
Local Abbreviation runSteps := (WorkflowEngine.runSteps dispatch).
Local Abbreviation mergesOnlyExecuted := (WorkflowEngine.mergesOnlyExecuted dispatch).
Local Abbreviation extends := (WorkflowEngine.extends dispatch).

(** Induction on a step with the hypothesis for all its children. *)
Lemma Step_nested_ind (P : Step -> Prop) :
  (forall template stop children, Forall P children -> P (MkStep template stop children)) ->
  forall s, P s.
Proof.
  intros Hstep. fix IH 1. intros [template stop children]. apply Hstep.
  induction children as [|c children IHc]; constructor; [apply IH|apply IHc].
Qed.

Lemma replay_app (ctx : Variables) (a b : list Event) :
  replay ctx (a ++ b) = replay (replay ctx a) b.
Proof. unfold replay. apply fold_left_app. Qed.

(** Where an element of [a ++ b] sits. *)
Lemma app_eq_middle {A : Type} (a b pre post : list A) (x : A) :
  a ++ b = pre ++ x :: post ->
  (exists post', a = pre ++ x :: post' /\ post = post' ++ b)
  \/ (exists pre', pre = a ++ pre' /\ b = pre' ++ x :: post).
Proof.
  revert pre. induction a as [|y a IH]; intros pre E.
  - right. by exists pre.
  - destruct pre as [|z pre]; simpl in E; injection E as -> E.
    + left. by exists a.
    + destruct (IH pre E) as [(post' & -> & ->)|(pre' & -> & ->)].
      * left. by exists post'.
      * right. by exists pre'.
Qed.

Lemma readsOnlyPast_nil (ctx : Variables) : readsOnlyPast ctx [].
Proof. intros pre t v post E. by destruct pre. Qed.

Lemma readsOnlyPast_app (ctx : Variables) (a b : list Event) :
  readsOnlyPast ctx a -> readsOnlyPast (replay ctx a) b -> readsOnlyPast ctx (a ++ b).
Proof.
  intros Ha Hb pre t v post E.
  apply app_eq_middle in E as [(post' & E & _)|(pre' & -> & E)].
  - by apply (Ha pre t v post').
  - rewrite replay_app. by apply (Hb pre' t v post).
Qed.

Lemma readsOnlyPast_visited (ctx : Variables) (t : string) :
  readsOnlyPast ctx [Visited t ctx].
Proof.
  intros pre t' v post E. destruct pre as [|e pre]; simpl in E.
  - by injection E as _ <- _.
  - injection E as _ E. by destruct pre.
Qed.

Lemma readsOnlyPast_other (ctx : Variables) (ev : Event) :
  (forall t v, ev <> Visited t v) -> readsOnlyPast ctx [ev].
Proof.
  intros Hev pre t v post E. destruct pre as [|e pre]; simpl in E.
  - injection E as -> _. by destruct (Hev t v).
  - injection E as _ E. by destruct pre.
Qed.

Lemma mergesOnlyExecuted_nil : mergesOnlyExecuted [].
Proof. intros pre t x post E. by destruct pre. Qed.

Lemma mergesOnlyExecuted_app (a b : list Event) :
  mergesOnlyExecuted a -> mergesOnlyExecuted b -> mergesOnlyExecuted (a ++ b).
Proof.
  intros Ha Hb pre t x post E.
  apply app_eq_middle in E as [(post' & E & _)|(pre' & -> & E)].
  - by apply (Ha pre t x post').
  - destruct (Hb pre' t x post E) as (v & Hv & Hd).
    exists v. split; [|done]. apply elem_of_app. by right.
Qed.

Lemma mergesOnlyExecuted_other (ev : Event) :
  (forall t x, ev <> Merged t x) -> mergesOnlyExecuted [ev].
Proof.
  intros Hev pre t x post E. destruct pre as [|e pre]; simpl in E.
  - injection E as -> _. by destruct (Hev t x).
  - injection E as _ E. by destruct pre.
Qed.

(** Closing a matched step: its merge comes after its visit. *)
Lemma mergesOnlyExecuted_close (t : string) (v x : Variables) (inner : list Event) :
  dispatch t v = Completed true x ->
  mergesOnlyExecuted inner ->
  mergesOnlyExecuted (Visited t v :: inner ++ [Merged t x]).
Proof.
  intros Hd Hin.
  change (mergesOnlyExecuted (([Visited t v] ++ inner) ++ [Merged t x])).
  intros pre t' x' post E.
  apply app_eq_middle in E as [(post' & E & _)|(pre' & -> & E)].
  - assert (Hall : mergesOnlyExecuted ([Visited t v] ++ inner)).
    { apply mergesOnlyExecuted_app; [|done].
      by apply mergesOnlyExecuted_other. }
    by apply (Hall pre t' x' post').
  - destruct pre' as [|e pre']; simpl in E.
    + injection E as <- <- _. exists v. split; [|done].
      rewrite app_nil_r. apply elem_of_app. left. by left.
    + injection E as _ E. by destruct pre'.
Qed.

Lemma extends_refl (r : Run) : extends r r.
Proof.
  exists []. rewrite app_nil_r.
  split; [done|]. split; [done|].
  split; [apply readsOnlyPast_nil|apply mergesOnlyExecuted_nil].
Qed.

Lemma extends_trans (r1 r2 r3 : Run) : extends r1 r2 -> extends r2 r3 -> extends r1 r3.
Proof.
  intros (a & Ta & Ca & Ra & Ma) (b & Tb & Cb & Rb & Mb).
  exists (a ++ b). rewrite Tb, Ta, Cb, Ca, replay_app, app_assoc.
  repeat split; try done.
  - apply readsOnlyPast_app; [done|]. by rewrite <- Ca.
  - by apply mergesOnlyExecuted_app.
Qed.

Lemma fold_extends (children : list Step) (r : Run) :
  Forall (fun s => forall r, extends r (runStep s r)) children ->
  extends r (fold_left (fun acc child => runStep child acc) children r).
Proof.
  intros Hall. revert r.
  induction Hall as [|c children Hc _ IH]; intros r; simpl.
  - apply extends_refl.
  - eapply extends_trans; [apply Hc|apply IH].
Qed.

Lemma runStep_extends (s : Step) (r : Run) : extends r (runStep s r).
Proof.
  revert r. induction s as [t stop children IH] using Step_nested_ind. intros r.
  simpl. destruct (aborted r) eqn:Hab; [apply extends_refl|].
  destruct (dispatch t (context r)) as [|[|] x] eqn:Hd.
  - exists [Visited t (context r); Aborted t]. simpl.
    rewrite <- app_assoc. repeat split; try done.
    + apply (readsOnlyPast_app _ [_] [_]); [apply readsOnlyPast_visited|].
      by apply readsOnlyPast_other.
    + apply (mergesOnlyExecuted_app [_] [_]); by apply mergesOnlyExecuted_other.
  - set (r1 := {| context := context r;
                  trace := trace r ++ [Visited t (context r)];
                  aborted := false |}).
    destruct (fold_extends children r1 IH) as (inner & Ti & Ci & Ri & Mi).
    set (r' := fold_left (fun acc child => runStep child acc) children r1) in *.
    simpl in Ti, Ci, Ri.
    destruct (aborted r').
    + exists (Visited t (context r) :: inner).
      rewrite Ti, <- app_assoc. repeat split; try done.
      * apply (readsOnlyPast_app _ [_]); [apply readsOnlyPast_visited|done].
      * apply (mergesOnlyExecuted_app [_]); [|done].
        by apply mergesOnlyExecuted_other.
    + exists (Visited t (context r) :: inner ++ [Merged t x]). simpl.
      rewrite Ti, Ci, <- !app_assoc. repeat split; try done.
      * change (Visited t (context r) :: inner ++ [Merged t x])
          with ([Visited t (context r)] ++ inner ++ [Merged t x]).
        rewrite !replay_app. done.
      * apply (readsOnlyPast_app _ [_]); [apply readsOnlyPast_visited|].
        apply readsOnlyPast_app; [done|]. by apply readsOnlyPast_other.
      * by apply mergesOnlyExecuted_close.
  - exists [Visited t (context r)]. repeat split; try done.
    + apply readsOnlyPast_visited.
    + by apply mergesOnlyExecuted_other.
Qed.

Lemma runSteps_extends (steps : list Step) (r : Run) : extends r (runSteps steps r).
Proof.
  apply fold_extends, Forall_forall. intros s _ r'. apply runStep_extends.
Qed.

(** A variable of a replayed context was there at the start or comes from
    one of the merges. *)
Lemma replay_origin (ctx : Variables) (events : list Event) (x : string) :
  is_Some (replay ctx events !! x) ->
  is_Some (ctx !! x)
  \/ exists t extracted, Merged t extracted ∈ events /\ is_Some (extracted !! x).
Proof.
  revert ctx. induction events as [|ev events IH]; intros ctx H; [by left|].
  apply IH in H as [H|(t & ex & Hin & Hx)].
  - destruct ev as [t v|t ex|t]; [by left| |by left].
    unfold merge in H. apply lookup_union_is_Some in H as [H|H]; [|by left].
    right. exists t, ex. split; [by left|done].
  - right. exists t, ex. split; [by right|done].
Qed.

End WorkflowFacts.



(* ===================================================================== *)
(** * Part III: further properties of templates.go                        *)
(* ===================================================================== *)

(** ** More on the loading loop *)
Section LoadingMore.

Context {Value : Type}.
Variable r : runner.Runner Value.
Variable severities : list string.
Variable ty : runner.TemplateType.

Local Abbreviation loadOne :=
  (runner.loadOne r (0 <? length severities)%nat severities ty).
Local Abbreviation loadAll := (Load.loadAll r severities ty).
Local Abbreviation accepts := (Load.accepts r severities ty).
Local Abbreviation emitted := (Load.emitted r severities ty).

Lemma loadAll_snoc paths p st :
  loadAll (paths ++ [p]) st = loadOne (loadAll paths st) p.
Proof. by rewrite loadAll_app. Qed.

(** The map after the loop is the map the loop builds from nothing, laid
    over the map it started from. *)
Lemma parsedTemplates_loadAll_union paths (st st0 : runner.Loaded Value) :
  runner.parsedTemplates st0 = ∅ ->
  runner.parsedTemplates (loadAll paths st)
  = runner.parsedTemplates (loadAll paths st0) ∪ runner.parsedTemplates st.
Proof.
  intros H0. induction paths as [|p paths IH] using rev_ind.
  - simpl. by rewrite H0, (left_id_L ∅ (∪)).
  - rewrite !loadAll_snoc, !parsedTemplates_loadOne, IH.
    destruct (accepts p) as [t|]; [|done].
    by rewrite insert_union_l.
Qed.

(** The messages of the loop are those of its paths, one path after the
    other. *)
Lemma logged_loadAll paths st :
  runner.logged (loadAll paths st) = runner.logged st ++ concat (map emitted paths).
Proof.
  revert st. induction paths as [|p paths IH]; intros st.
  - simpl. by rewrite app_nil_r.
  - rewrite loadAll_cons, IH, logged_loadOne. simpl. by rewrite <- app_assoc.
Qed.

(** The size of the map grows by at most one per accepted path. *)
Lemma size_loadAll paths st :
  (size (runner.parsedTemplates (loadAll paths st))
   <= size (runner.parsedTemplates st)
      + length (List.filter (Tally.accepted r severities ty) paths))%nat.
Proof.
  induction paths as [|p paths IH] using rev_ind; [simpl; lia|].
  rewrite loadAll_snoc, parsedTemplates_loadOne, List.filter_app, length_app.
  simpl. unfold Tally.accepted at 2.
  destruct (accepts p) as [t|]; simpl; [|lia].
  rewrite map_size_insert.
  destruct (runner.parsedTemplates (loadAll paths st) !! templates.ID t); simpl; lia.
Qed.

(** An accepted path parses to a template of the requested kind. *)
Lemma accepted_parsesToKind p :
  Tally.accepted r severities ty p = true -> Load.parsesToKind r ty p = true.
Proof.
  unfold Tally.accepted, Load.accepts, Load.parsesToKind.
  destruct (runner.parseTemplateFile r p) as [[t|] [err|]]; try done.
  by destruct (Load.keptByType ty t).
Qed.

(** What one path logs, by what happens to it. *)
Lemma emitted_cases p :
  emitted p =
  match runner.parseTemplateFile r p with
  | (_, Some err) =>
      [gologger.Msgf gologger.Warning
         ("Could not parse file '" +:+ p +:+ "': " +:+ err +:+ runner.newline)]
  | (None, None) => []
  | (Some t, None) =>
      if Load.keptByType ty t then
        let sev := runner.ToLower r (runner.ToString r (templates.Info t !! "severity")) in
        if Load.passesSeverity r severities t then
          [gologger.Msgf gologger.Info
             (runner.templateLogMsg r (templates.ID t)
                (runner.ToString r (templates.Info t !! "name"))
                (runner.ToString r (templates.Info t !! "author")) sev
              +:+ runner.newline)]
        else
          [gologger.Msgf gologger.Warning
             ("Excluding template " +:+ templates.ID t +:+
              " due to severity filter (" +:+ sev +:+ " not in [" +:+
              runner.fmt_strings severities +:+ "])")]
      else []
  end.
Proof.
  unfold Load.emitted, Load.loadAll, runner.loadOne, Load.passesSeverity. simpl.
  destruct (runner.parseTemplateFile r p) as [[t|] [err|]]; try done.
  rewrite typeSwitch_kept. destruct (Load.keptByType ty t); simpl; [|done].
  by destruct (_ || _).
Qed.

End LoadingMore.

(** A filter that keeps nothing. *)
Lemma filter_none {A : Type} (f : A -> bool) (l : list A) :
  (forall x, f x = false) -> List.filter f l = [].
Proof. intros H. induction l as [|x l IH]; simpl; [done|]. by rewrite H. Qed.

(** X1.  Every entry of the returned map sits under the ID of its template,
    and that template is what [parseTemplateFile] returned, without error,
    for one of the given paths; when severities were given it matches
    them. *)
Theorem map_entries_are_parsed_templates {Value : Type} (r : runner.Runner Value)
    (templatePaths severities : list string) (templateType : runner.TemplateType)
    (id : string) (t : templates.Template Value) :
  runner.parsedTemplates
    (runner.getParsedTemplatesFor r templatePaths severities templateType) !! id
    = Some t ->
  templates.ID t = id
  /\ (exists p, p ∈ templatePaths /\ runner.parseTemplateFile r p = (Some t, None))
  /\ (severities <> [] ->
      runner.hasMatchingSeverity (runner.ToLower r)
        (runner.ToLower r (runner.ToString r (templates.Info t !! "severity")))
        severities = true).
Proof.
  intros H. unfold runner.getParsedTemplatesFor in H.
  apply (parsedTemplates_loadAll_origin r severities templateType) in H
    as [H|(p & Hp & Hacc & Hid)].
  { simpl in H. by rewrite lookup_empty in H. }
  unfold Load.accepts in Hacc.
  destruct (runner.parseTemplateFile r p) as [[t'|] [err|]] eqn:E; try done.
  destruct (Load.keptByType templateType t'); simpl in Hacc; [|done].
  destruct (Load.passesSeverity r severities t') eqn:Hs; [|done].
  injection Hacc as ->. split; [done|]. split; [by exists p|].
  intros Hne. unfold Load.passesSeverity in Hs.
  destruct severities; [done|]. by simpl in Hs.
Qed.

Lemma map_entries_are_parsed_templates_witness :
  templates.ID Sample.advHigh = "adv"
  /\ (exists p, p ∈ ["wf.yaml"; "adv.yaml"; "a.yaml"]
        /\ runner.parseTemplateFile Sample.r p = (Some Sample.advHigh, None))
  /\ (["crit"; "low,HI"] <> [] ->
      runner.hasMatchingSeverity (runner.ToLower Sample.r)
        (runner.ToLower Sample.r
           (runner.ToString Sample.r (templates.Info Sample.advHigh !! "severity")))
        ["crit"; "low,HI"] = true).
Proof.
  apply (map_entries_are_parsed_templates Sample.r ["wf.yaml"; "adv.yaml"; "a.yaml"]
           ["crit"; "low,HI"] runner.AdvancedWorkflow "adv").
  vm_compute. reflexivity.
Defined.

(** X2.  Only the two workflow kinds count: for [Template], and for any
    [templateType] that is none of the three constants, [workflowCount] is
    zero whatever the paths hold. *)
Theorem workflowCount_zero_for_other_kinds {Value : Type} (r : runner.Runner Value)
    (templatePaths severities : list string) (templateType : runner.TemplateType) :
  templateType <> runner.Workflows ->
  templateType <> runner.AdvancedWorkflow ->
  runner.workflowCount
    (runner.getParsedTemplatesFor r templatePaths severities templateType) = 0.
Proof.
  intros Hw Ha. unfold runner.getParsedTemplatesFor. fold_loadAll.
  rewrite workflowCount_loadAll. simpl.
  rewrite filter_none; [done|].
  intros p. unfold Load.bump, Load.countedKind.
  apply N.eqb_neq in Hw, Ha. rewrite Hw, Ha. simpl.
  by rewrite andb_false_r.
Qed.

Lemma workflowCount_zero_for_other_kinds_witness :
  runner.workflowCount
    (runner.getParsedTemplatesFor Sample.r ["wf.yaml"; "adv.yaml"; "a.yaml"] []
       7%N) = 0.
Proof.
  apply (workflowCount_zero_for_other_kinds Sample.r ["wf.yaml"; "adv.yaml"; "a.yaml"]
           [] 7%N); discriminate.
Defined.

(** X3.  The results are bounded by the input: the counter lies between
    zero and the number of paths, the map has at most as many entries as
    there are paths, and for the two workflow kinds the map never has more
    entries than the counter says. *)
Theorem results_bounded_by_paths :
  (forall (Value : Type) (r : runner.Runner Value)
      (templatePaths severities : list string) (templateType : runner.TemplateType),
      0 <= runner.workflowCount
             (runner.getParsedTemplatesFor r templatePaths severities templateType)
        <= Z.of_nat (length templatePaths)
      /\ (size (runner.parsedTemplates
                  (runner.getParsedTemplatesFor r templatePaths severities templateType))
          <= length templatePaths)%nat)
  /\ (forall (Value : Type) (r : runner.Runner Value)
        (templatePaths severities : list string) (templateType : runner.TemplateType),
        templateType = runner.Workflows \/ templateType = runner.AdvancedWorkflow ->
        Z.of_nat (size (runner.parsedTemplates
                    (runner.getParsedTemplatesFor r templatePaths severities templateType)))
        <= runner.workflowCount
             (runner.getParsedTemplatesFor r templatePaths severities templateType)).
Proof.
  split.
  - intros Value r paths severities ty. split; [apply workflowCount_bounds|].
    unfold runner.getParsedTemplatesFor. fold_loadAll.
    etrans; [apply size_loadAll|]. simpl. rewrite map_size_empty. simpl.
    apply List.filter_length_le.
  - intros Value r paths severities ty Hty.
    unfold runner.getParsedTemplatesFor. fold_loadAll.
    rewrite workflowCount_loadAll. simpl.
    pose proof (size_loadAll r severities ty paths
                  {| runner.parsedTemplates := ∅; runner.workflowCount := 0;
                     runner.logged := [runner.loadingMsg ty] |}) as Hsize.
    simpl in Hsize. rewrite map_size_empty in Hsize. simpl in Hsize.
    assert (Hle : (length (List.filter (Tally.accepted r severities ty) paths)
                   <= length (List.filter (fun p => (Load.bump r ty p =? 1)%Z) paths))%nat).
    { clear Hsize. induction paths as [|p paths IH]; simpl; [lia|].
      destruct (Tally.accepted r severities ty p) eqn:E.
      - apply accepted_parsesToKind in E.
        assert (Load.bump r ty p = 1) as ->.
        { unfold Load.bump. rewrite E. by destruct Hty as [-> | ->]. }
        simpl. lia.
      - destruct (Load.bump r ty p =? 1); simpl; lia. }
    lia.
Qed.

Lemma results_bounded_by_paths_witness :
  Z.of_nat (size (runner.parsedTemplates
              (runner.getParsedTemplatesFor Sample.r ["wf.yaml"; "wf.yaml"; "a.yaml"]
                 ["low"] runner.Workflows)))
  <= runner.workflowCount
       (runner.getParsedTemplatesFor Sample.r ["wf.yaml"; "wf.yaml"; "a.yaml"]
          ["low"] runner.Workflows).
Proof.
  apply (proj2 results_bounded_by_paths string Sample.r ["wf.yaml"; "wf.yaml"; "a.yaml"]
           ["low"] runner.Workflows).
  left. reflexivity.
Defined.

(** What [getParsedTemplatesFor] returns and logs, through [Load.loadAll]. *)
Lemma getParsedTemplatesFor_loadAll {Value : Type} (r : runner.Runner Value)
    (templatePaths severities : list string) (templateType : runner.TemplateType) :
  runner.getParsedTemplatesFor r templatePaths severities templateType
  = Load.loadAll r severities templateType templatePaths
      {| runner.parsedTemplates := ∅; runner.workflowCount := 0;
         runner.logged := [runner.loadingMsg templateType] |}.
Proof. reflexivity. Qed.

(** X4.  Loading a concatenation of two path lists composes the two
    loadings: the map is that of the second list laid over that of the
    first (on a shared ID the second wins), the counters add up, and the log
    is the first log followed by the second without its banner. *)
Theorem loading_concatenated_paths {Value : Type} (r : runner.Runner Value)
    (pre post severities : list string) (templateType : runner.TemplateType) :
  runner.parsedTemplates
    (runner.getParsedTemplatesFor r (pre ++ post) severities templateType)
  = runner.parsedTemplates (runner.getParsedTemplatesFor r post severities templateType)
    ∪ runner.parsedTemplates (runner.getParsedTemplatesFor r pre severities templateType)
  /\ runner.workflowCount
       (runner.getParsedTemplatesFor r (pre ++ post) severities templateType)
     = runner.workflowCount (runner.getParsedTemplatesFor r pre severities templateType)
       + runner.workflowCount (runner.getParsedTemplatesFor r post severities templateType)
  /\ runner.logged
       (runner.getParsedTemplatesFor r (pre ++ post) severities templateType)
     = runner.logged (runner.getParsedTemplatesFor r pre severities templateType)
       ++ drop 1 (runner.logged
                    (runner.getParsedTemplatesFor r post severities templateType)).
Proof.
  rewrite !getParsedTemplatesFor_loadAll, loadAll_app.
  split; [|split].
  - by apply parsedTemplates_loadAll_union.
  - rewrite !workflowCount_loadAll. simpl. lia.
  - rewrite !logged_loadAll. simpl. by rewrite drop_0.
Qed.

(** X5.  Giving every path twice leaves the map as it is and doubles the
    counter. *)
Theorem loading_paths_twice {Value : Type} (r : runner.Runner Value)
    (templatePaths severities : list string) (templateType : runner.TemplateType) :
  runner.parsedTemplates
    (runner.getParsedTemplatesFor r (templatePaths ++ templatePaths) severities
       templateType)
  = runner.parsedTemplates
      (runner.getParsedTemplatesFor r templatePaths severities templateType)
  /\ runner.workflowCount
       (runner.getParsedTemplatesFor r (templatePaths ++ templatePaths) severities
          templateType)
     = 2 * runner.workflowCount
             (runner.getParsedTemplatesFor r templatePaths severities templateType).
Proof.
  rewrite !getParsedTemplatesFor_loadAll, loadAll_app. split.
  - rewrite (parsedTemplates_loadAll_union r severities templateType templatePaths _
               {| runner.parsedTemplates := ∅; runner.workflowCount := 0;
                  runner.logged := [runner.loadingMsg templateType] |}) by done.
    apply (idemp_L (∪)).
  - rewrite !workflowCount_loadAll. simpl. lia.
Qed.

(** X6.  A path that parses to nil without an error, or to a template the
    type switch rejects, leaves no trace at all: map, counter and log are
    those of the path list without it. *)
Theorem unwanted_paths_leave_no_trace {Value : Type} (r : runner.Runner Value)
    (pre post severities : list string) (templateType : runner.TemplateType)
    (p : string) :
  runner.parseTemplateFile r p = (None, None)
  \/ (exists t count, runner.parseTemplateFile r p = (Some t, None)
        /\ runner.typeSwitch templateType t count = None) ->
  runner.getParsedTemplatesFor r (pre ++ p :: post) severities templateType
  = runner.getParsedTemplatesFor r (pre ++ post) severities templateType.
Proof.
  intros H. rewrite !getParsedTemplatesFor_loadAll, !loadAll_app, loadAll_cons.
  f_equal. unfold runner.loadOne.
  destruct H as [-> | (t & count & -> & Hsw)]; [done|].
  rewrite typeSwitch_kept in Hsw. rewrite typeSwitch_kept.
  by destruct (Load.keptByType templateType t).
Qed.

Lemma unwanted_paths_leave_no_trace_witness :
  runner.getParsedTemplatesFor Sample.r (["a.yaml"] ++ "wf.yaml" :: ["b.yaml"]) ["low"]
    runner.Template
  = runner.getParsedTemplatesFor Sample.r (["a.yaml"] ++ ["b.yaml"]) ["low"]
      runner.Template.
Proof.
  apply (unwanted_paths_leave_no_trace Sample.r ["a.yaml"] ["b.yaml"] ["low"]
           runner.Template "wf.yaml").
  right. exists Sample.wfLow, 0. split; reflexivity.
Defined.

(** ** Counting the messages of the loading loop *)
Section LogTally.

Context {Value : Type}.
Variable r : runner.Runner Value.
Variable severities : list string.
Variable ty : runner.TemplateType.

Local Abbreviation emitted := (Load.emitted r severities ty).
Local Abbreviation failsToParse := (Tally.failsToParse r).
Local Abbreviation parsesToKind := (Load.parsesToKind r ty).
Local Abbreviation accepted := (Tally.accepted r severities ty).

(** Counting, over the messages of all paths, what each path contributes
    at most once. *)
Lemma tally_concat {A B : Type} (F : A -> list B) (f : B -> bool) (g : A -> bool)
    (l : list A) :
  (forall a, length (List.filter f (F a)) = if g a then 1%nat else 0%nat) ->
  length (List.filter f (concat (map F l))) = length (List.filter g l).
Proof.
  intros H. induction l as [|a l IH]; simpl; [done|].
  rewrite List.filter_app, length_app, H, IH.
  by destruct (g a).
Qed.

Lemma tally_emitted p :
  length (emitted p) = (if failsToParse p || parsesToKind p then 1%nat else 0%nat)
  /\ length (List.filter (Tally.hasLevel gologger.Info) (emitted p))
     = (if accepted p then 1%nat else 0%nat)
  /\ length (List.filter (Tally.hasLevel gologger.Warning) (emitted p))
     = (if failsToParse p || (parsesToKind p && negb (accepted p)) then 1%nat else 0%nat)
  /\ length (List.filter (Tally.hasLevel gologger.Error) (emitted p)) = 0%nat
  /\ length (List.filter (Tally.hasLevel gologger.Print) (emitted p)) = 0%nat.
Proof.
  rewrite emitted_cases.
  unfold Tally.failsToParse, Load.parsesToKind, Tally.accepted, Load.accepts.
  destruct (runner.parseTemplateFile r p) as [[t|] [err|]]; simpl; try done.
  destruct (Load.keptByType ty t); simpl; [|done].
  by destruct (Load.passesSeverity r severities t).
Qed.

End LogTally.

(** X7.  The log accounts for every path: after the banner there is
    exactly one message for each path that fails to parse or parses to a
    template of the requested kind, and none for any other path.  The Info
    messages are the banner and one line per accepted path; the Warning
    messages are one per parse failure and one per template the severity
    filter excludes; nothing is logged at the Error or Print level. *)
Theorem log_accounts_for_every_path {Value : Type} (r : runner.Runner Value)
    (templatePaths severities : list string) (templateType : runner.TemplateType) :
  (exists rest,
     runner.logged (runner.getParsedTemplatesFor r templatePaths severities templateType)
     = runner.loadingMsg templateType :: rest
     /\ length rest
        = length (List.filter
                    (fun p => Tally.failsToParse r p
                              || Load.parsesToKind r templateType p) templatePaths)
     /\ length (List.filter (Tally.hasLevel gologger.Info) rest)
        = length (List.filter (Tally.accepted r severities templateType) templatePaths)
     /\ length (List.filter (Tally.hasLevel gologger.Warning) rest)
        = length (List.filter
                    (fun p => Tally.failsToParse r p
                              || (Load.parsesToKind r templateType p
                                  && negb (Tally.accepted r severities templateType p)))
                    templatePaths)
     /\ List.filter (Tally.hasLevel gologger.Error) rest = []
     /\ List.filter (Tally.hasLevel gologger.Print) rest = []).
Proof.
  exists (concat (map (Load.emitted r severities templateType) templatePaths)).
  rewrite getParsedTemplatesFor_loadAll, logged_loadAll. simpl.
  split; [done|].
  assert (Hlen : forall l : list gologger.Event,
            length l = length (List.filter (fun _ => true) l)).
  { intros l. induction l; simpl; congruence. }
  split; [|split; [|split; [|split]]].
  - rewrite Hlen. apply tally_concat. intros p. rewrite <- Hlen.
    apply (tally_emitted r severities templateType p).
  - apply tally_concat. intros p. apply (tally_emitted r severities templateType p).
  - apply tally_concat. intros p. apply (tally_emitted r severities templateType p).
  - apply length_zero_iff_nil.
    rewrite (tally_concat _ _ (fun _ => false)); [by rewrite filter_none|].
    intros p. apply (tally_emitted r severities templateType p).
  - apply length_zero_iff_nil.
    rewrite (tally_concat _ _ (fun _ => false)); [by rewrite filter_none|].
    intros p. apply (tally_emitted r severities templateType p).
Qed.

(** ** The order of the paths *)
Section PathOrder.

Context {Value : Type}.
Variable r : runner.Runner Value.
Variable severities : list string.
Variable ty : runner.TemplateType.

Local Abbreviation loadOne :=
  (runner.loadOne r (0 <? length severities)%nat severities ty).
Local Abbreviation loadAll := (Load.loadAll r severities ty).
Local Abbreviation accepts := (Load.accepts r severities ty).
Local Abbreviation oneTemplatePerID := (Tally.oneTemplatePerID r severities ty).

Lemma filter_length_Permutation {A : Type} (f : A -> bool) (l k : list A) :
  Permutation l k -> length (List.filter f l) = length (List.filter f k).
Proof.
  induction 1 as [|x l k _ IH|x y l|l k m _ IH1 _ IH2]; simpl.
  - done.
  - destruct (f x); simpl; congruence.
  - by destruct (f x), (f y).
  - congruence.
Qed.

(** The map of the loop depends on the starting state only through its
    map. *)
Lemma parsedTemplates_loadAll_start paths st1 st2 :
  runner.parsedTemplates st1 = runner.parsedTemplates st2 ->
  runner.parsedTemplates (loadAll paths st1) = runner.parsedTemplates (loadAll paths st2).
Proof.
  intros E.
  rewrite (parsedTemplates_loadAll_union r severities ty paths st1
             {| runner.parsedTemplates := ∅; runner.workflowCount := 0;
                runner.logged := [] |}) by done.
  rewrite (parsedTemplates_loadAll_union r severities ty paths st2
             {| runner.parsedTemplates := ∅; runner.workflowCount := 0;
                runner.logged := [] |}) by done.
  by rewrite E.
Qed.

Lemma parsedTemplates_loadAll_Permutation paths paths' st :
  Permutation paths paths' ->
  oneTemplatePerID paths ->
  runner.parsedTemplates (loadAll paths st) = runner.parsedTemplates (loadAll paths' st).
Proof.
  intros Hperm. revert st.
  induction Hperm as [|x l k _ IH|x y l|l k m Hlk IH1 Hkm IH2]; intros st Hone.
  - done.
  - rewrite !loadAll_cons. apply IH.
    intros p q t t' Hp Hq. apply Hone; by right.
  - rewrite !loadAll_cons. apply parsedTemplates_loadAll_start.
    rewrite !parsedTemplates_loadOne.
    destruct (accepts x) as [tx|] eqn:Ex, (accepts y) as [ty'|] eqn:Ey; try done.
    destruct (decide (templates.ID tx = templates.ID ty')) as [E|Hne].
    + assert (tx = ty') as ->; [|done].
      apply (Hone x y); try done; [right; by left|by left].
    + by apply insert_insert_ne.
  - rewrite IH1 by done. apply IH2.
    intros p q t t' Hp Hq. apply Hone; by rewrite Hlk.
Qed.

End PathOrder.

(** X8.  The order of the paths does not matter to the counter, and it
    matters to the map only through shared IDs: when accepted templates
    with one ID are one template, reordering the paths gives the same
    map. *)
Theorem path_order_is_irrelevant {Value : Type} (r : runner.Runner Value)
    (templatePaths templatePaths' severities : list string)
    (templateType : runner.TemplateType) :
  Permutation templatePaths templatePaths' ->
  runner.workflowCount
    (runner.getParsedTemplatesFor r templatePaths severities templateType)
  = runner.workflowCount
      (runner.getParsedTemplatesFor r templatePaths' severities templateType)
  /\ ((forall p q t t', p ∈ templatePaths -> q ∈ templatePaths ->
         Load.accepts r severities templateType p = Some t ->
         Load.accepts r severities templateType q = Some t' ->
         templates.ID t = templates.ID t' -> t = t') ->
      runner.parsedTemplates
        (runner.getParsedTemplatesFor r templatePaths severities templateType)
      = runner.parsedTemplates
          (runner.getParsedTemplatesFor r templatePaths' severities templateType)).
Proof.
  intros Hperm. rewrite !getParsedTemplatesFor_loadAll. split.
  - rewrite !workflowCount_loadAll. do 2 f_equal.
    by apply filter_length_Permutation.
  - intros Hone. by apply parsedTemplates_loadAll_Permutation.
Qed.

Lemma path_order_is_irrelevant_witness :
  runner.workflowCount
    (runner.getParsedTemplatesFor Sample.r ["wf.yaml"; "adv.yaml"] [] runner.Workflows)
  = runner.workflowCount
      (runner.getParsedTemplatesFor Sample.r ["adv.yaml"; "wf.yaml"] [] runner.Workflows).
Proof.
  apply (path_order_is_irrelevant Sample.r ["wf.yaml"; "adv.yaml"]
           ["adv.yaml"; "wf.yaml"] [] runner.Workflows).
  apply perm_swap.
Defined.

(** ** More on [hasMatchingSeverity] *)
Section SeverityMore.

Variable ToLower : string -> string.

Local Abbreviation matchesAny := (runner.matchesAny ToLower).
Local Abbreviation hasMatchingSeverity := (runner.hasMatchingSeverity ToLower).

Lemma matchesAny_app ts (a b : list string) :
  matchesAny ts (a ++ b) = matchesAny ts a || matchesAny ts b.
Proof.
  induction a as [|c a IH]; simpl; [done|].
  by destruct (negb (String.eqb (ToLower c) "") && strings.HasPrefix ts (ToLower c)).
Qed.

Lemma hasMatchingSeverity_app ts (a b : list string) :
  hasMatchingSeverity ts (a ++ b) = hasMatchingSeverity ts a || hasMatchingSeverity ts b.
Proof.
  induction a as [|s a IH]; simpl; [done|].
  by destruct (matchesAny ts (runner.finalSeverities s)).
Qed.

(** On comma-free entries the outer loop tests each entry itself. *)
Lemma hasMatchingSeverity_comma_free ts (l : list string) :
  Forall (fun p => occurs ","%char p = false) l ->
  hasMatchingSeverity ts l = matchesAny ts l.
Proof.
  induction 1 as [|c l Hc _ IH]; simpl; [done|].
  rewrite finalSeverities_Split, Split_no_sep by done. simpl. rewrite IH.
  by destruct (negb (String.eqb (ToLower c) "") && strings.HasPrefix ts (ToLower c)).
Qed.

Lemma hasMatchingSeverity_flat ts (allowed : list string) :
  hasMatchingSeverity ts allowed
  = hasMatchingSeverity ts (concat (map (fun s => strings.Split s ","%char) allowed)).
Proof.
  induction allowed as [|s allowed IH]; simpl; [done|].
  rewrite hasMatchingSeverity_app, <- IH, finalSeverities_Split.
  rewrite (hasMatchingSeverity_comma_free ts (strings.Split s ","%char))
    by apply Split_pieces.
  by destruct (matchesAny ts (strings.Split s ","%char)).
Qed.

(** Nothing matches the empty template severity. *)
Lemma hasMatchingSeverity_empty (allowed : list string) :
  hasMatchingSeverity "" allowed = false.
Proof.
  apply not_true_is_false. intros (s & c & _ & _ & Hne & Hp)%hasMatchingSeverity_pieces.
  apply HasPrefix_iff in Hp as [rest Hp]. apply Hne.
  by destruct (ToLower c).
Qed.

End SeverityMore.

(** X9.  The allowed list is a flat set of pieces: the result over a
    concatenation is the disjunction of the results over its parts, so
    neither order nor grouping matters; an entry with commas counts as its
    pieces given one by one, and a list of comma-free entries may as well
    be given as one entry joined by commas. *)
Theorem allowed_severities_are_flat (ToLower : string -> string) (ts : string) :
  (forall a b : list string,
     runner.hasMatchingSeverity ToLower ts (a ++ b)
     = runner.hasMatchingSeverity ToLower ts a
       || runner.hasMatchingSeverity ToLower ts b)
  /\ (forall allowed : list string,
        runner.hasMatchingSeverity ToLower ts allowed
        = runner.hasMatchingSeverity ToLower ts
            (concat (map (fun s => strings.Split s ","%char) allowed)))
  /\ (forall parts : list string,
        parts <> [] ->
        Forall (fun p => strings.Contains p "," = false) parts ->
        runner.hasMatchingSeverity ToLower ts [strings.Join parts ","]
        = runner.hasMatchingSeverity ToLower ts parts).
Proof.
  split; [|split].
  - apply hasMatchingSeverity_app.
  - apply hasMatchingSeverity_flat.
  - intros parts Hne Hall.
    rewrite (hasMatchingSeverity_flat ToLower ts [_]). simpl. rewrite app_nil_r.
    rewrite Split_Join; [done|done|].
    eapply Forall_impl; [exact Hall|]. intros p Hp. by rewrite <- Contains_byte.
Qed.

Lemma allowed_severities_are_flat_witness :
  runner.hasMatchingSeverity strings.ToLowerASCII "medium"
    [strings.Join ["low"; "MED"; "high"] ","]
  = runner.hasMatchingSeverity strings.ToLowerASCII "medium" ["low"; "MED"; "high"].
Proof.
  apply (proj2 (proj2 (allowed_severities_are_flat strings.ToLowerASCII "medium"))
           ["low"; "MED"; "high"]).
  - discriminate.
  - repeat constructor.
Defined.

(** X10.  The template side is compared as it is: nothing matches an empty
    template severity, and with Go's ASCII lower-casing nothing matches a
    template severity that starts with an upper-case ASCII letter, whatever
    the allowed list is. *)
Theorem template_severity_is_not_normalised :
  (forall (ToLower : string -> string) (allowed : list string),
     runner.hasMatchingSeverity ToLower "" allowed = false)
  /\ (forall (c : ascii) (rest : string) (allowed : list string),
        strings.lower_byte c <> c ->
        runner.hasMatchingSeverity strings.ToLowerASCII (String c rest) allowed = false).
Proof.
  split; [apply hasMatchingSeverity_empty|].
  intros c rest allowed Hup. apply not_true_is_false.
  intros (s & p & _ & _ & Hne & Hp)%hasMatchingSeverity_pieces.
  apply HasPrefix_iff in Hp as [tail Hp].
  destruct p as [|d p]; [done|]. simpl in Hp. rewrite append_cons in Hp.
  injection Hp as -> _. apply Hup, lower_byte_idemp.
Qed.

Lemma template_severity_is_not_normalised_witness :
  runner.hasMatchingSeverity strings.ToLowerASCII (String "H"%char "igh")
    ["high"; "HIGH"; "h"] = false.
Proof.
  apply (proj2 template_severity_is_not_normalised "H"%char "igh" ["high"; "HIGH"; "h"]).
  discriminate.
Defined.

(** X11.  Under a severity filter a template without a severity is never
    loaded: when severities are given and the lower-cased rendering of the
    template's "severity" entry is empty, the template is no entry of the
    returned map. *)
Theorem templates_without_severity_are_excluded {Value : Type}
    (r : runner.Runner Value) (templatePaths severities : list string)
    (templateType : runner.TemplateType) (id : string) (t : templates.Template Value) :
  severities <> [] ->
  runner.ToLower r (runner.ToString r (templates.Info t !! "severity")) = "" ->
  runner.parsedTemplates
    (runner.getParsedTemplatesFor r templatePaths severities templateType) !! id
  <> Some t.
Proof.
  intros Hne Hsev H. rewrite getParsedTemplatesFor_loadAll in H.
  apply parsedTemplates_loadAll_origin in H as [H|(p & _ & Hacc & _)].
  { simpl in H. by rewrite lookup_empty in H. }
  unfold Load.accepts in Hacc.
  destruct (runner.parseTemplateFile r p) as [[t'|] [err|]]; try done.
  destruct (Load.keptByType templateType t'); simpl in Hacc; [|done].
  destruct (Load.passesSeverity r severities t') eqn:Hs; [|done].
  injection Hacc as ->. unfold Load.passesSeverity in Hs.
  rewrite Hsev, hasMatchingSeverity_empty in Hs.
  destruct severities; [done|]. by simpl in Hs.
Qed.

Lemma templates_without_severity_are_excluded_witness :
  runner.parsedTemplates
    (runner.getParsedTemplatesFor Sample.r ["a.yaml"; "wf.yaml"] ["low"; "info"]
       runner.Template) !! "x"
  <> Some Sample.tplA.
Proof.
  apply (templates_without_severity_are_excluded Sample.r ["a.yaml"; "wf.yaml"]
           ["low"; "info"] runner.Template "x" Sample.tplA).
  - discriminate.
  - reflexivity.
Defined.

(** X12.  The three kinds of pass split the templates: without a severity
    filter, a path that parses to a template is loaded by the [Template]
    pass and by neither workflow pass, or it is loaded by the [Workflows]
    pass or the [AdvancedWorkflow] pass (possibly both) and not by the
    [Template] pass. *)
Theorem every_template_has_its_pass {Value : Type} (r : runner.Runner Value)
    (p : string) (t : templates.Template Value) :
  runner.parseTemplateFile r p = (Some t, None) ->
  (runner.parsedTemplates (runner.getParsedTemplatesFor r [p] [] runner.Template)
     = {[ templates.ID t := t ]}
   /\ runner.parsedTemplates (runner.getParsedTemplatesFor r [p] [] runner.Workflows) = ∅
   /\ runner.parsedTemplates (runner.getParsedTemplatesFor r [p] [] runner.AdvancedWorkflow)
      = ∅)
  \/ (runner.parsedTemplates (runner.getParsedTemplatesFor r [p] [] runner.Template) = ∅
      /\ (runner.parsedTemplates (runner.getParsedTemplatesFor r [p] [] runner.Workflows)
            = {[ templates.ID t := t ]}
          \/ runner.parsedTemplates
               (runner.getParsedTemplatesFor r [p] [] runner.AdvancedWorkflow)
             = {[ templates.ID t := t ]})).
Proof.
  intros Hp. unfold runner.getParsedTemplatesFor, runner.loadOne. simpl.
  rewrite Hp. unfold runner.typeSwitch. simpl.
  destruct (templates.Workflows t) as [|w ws]; simpl;
    destruct (String.eqb (templates.Code t) ""); simpl; auto.
Qed.

Lemma every_template_has_its_pass_witness :
  (runner.parsedTemplates
     (runner.getParsedTemplatesFor Sample.r ["adv.yaml"] [] runner.Template)
     = {[ templates.ID Sample.advHigh := Sample.advHigh ]}
   /\ runner.parsedTemplates
        (runner.getParsedTemplatesFor Sample.r ["adv.yaml"] [] runner.Workflows) = ∅
   /\ runner.parsedTemplates
        (runner.getParsedTemplatesFor Sample.r ["adv.yaml"] [] runner.AdvancedWorkflow)
      = ∅)
  \/ (runner.parsedTemplates
        (runner.getParsedTemplatesFor Sample.r ["adv.yaml"] [] runner.Template) = ∅
      /\ (runner.parsedTemplates
            (runner.getParsedTemplatesFor Sample.r ["adv.yaml"] [] runner.Workflows)
            = {[ templates.ID Sample.advHigh := Sample.advHigh ]}
          \/ runner.parsedTemplates
               (runner.getParsedTemplatesFor Sample.r ["adv.yaml"] []
                  runner.AdvancedWorkflow)
             = {[ templates.ID Sample.advHigh := Sample.advHigh ]})).
Proof.
  apply (every_template_has_its_pass Sample.r "adv.yaml" Sample.advHigh).
  reflexivity.
Defined.

(** ** Listing the available templates *)
Section Listing.

Context {Value : Type}.
Variable r : runner.Runner Value.
Variable h : lister.Host.
Variable cfg : lister.Config.

Local Abbreviation logAvailableTemplate := (lister.logAvailableTemplate r).
Local Abbreviation listCallback := (lister.listCallback r h cfg).
Local Abbreviation visitAll := (lister.visitAll listCallback).
Local Abbreviation listed := (Tally.listed cfg).
Local Abbreviation announced := (Tally.announced cfg).
Local Abbreviation parsesToNil := (Tally.parsesToNil r).

(** [logAvailableTemplate] panics on a nil template without error and
    otherwise logs one message. *)
Lemma logAvailableTemplate_cases path log :
  (parsesToNil path = true /\ logAvailableTemplate path log = lister.Panicked log)
  \/ (parsesToNil path = false
      /\ exists e, logAvailableTemplate path log = lister.Returned (log ++ [e])).
Proof.
  unfold lister.logAvailableTemplate, Tally.parsesToNil.
  destruct (runner.parseTemplateFile r path) as [[t|] [err|]]; eauto.
Qed.

(** The callback on one node: it panics on a listed node that parses to
    nil, and otherwise adds one message for an announced or listed node and
    none for any other. *)
Lemma listCallback_cases node log :
  (listed node = true /\ parsesToNil node.1 = true
   /\ listCallback node.1 node.2 log = lister.Panicked log)
  \/ (listed node && parsesToNil node.1 = false
      /\ exists added,
           listCallback node.1 node.2 log = lister.Returned (log ++ added)
           /\ length added = if announced node || listed node then 1%nat else 0%nat).
Proof.
  unfold lister.listCallback, Tally.listed, Tally.announced.
  destruct (godirwalk.IsDir node.2 && negb (String.eqb node.1 (lister.TemplatesDirectory cfg)));
    simpl.
  { right. split; [done|]. by eexists [_]. }
  destruct (strings.HasSuffix node.1 ".yaml"); simpl.
  - destruct (logAvailableTemplate_cases node.1 log) as [[Hnil ->]|[Hnil [e ->]]].
    + by left.
    + right. split; [done|]. by exists [e].
  - right. split; [done|]. exists []. by rewrite app_nil_r.
Qed.

(** The walk returns when no listed node parses to nil, with one message
    per announced or listed node. *)
Lemma visitAll_returns nodes log :
  (forall node, node ∈ nodes -> listed node && parsesToNil node.1 = false) ->
  exists added,
    visitAll nodes log = lister.Returned (log ++ added)
    /\ length added
       = length (List.filter (fun node => announced node || listed node) nodes).
Proof.
  revert log. induction nodes as [|[path d] nodes IH]; intros log Hok.
  - exists []. by rewrite app_nil_r.
  - destruct (listCallback_cases (path, d) log)
      as [(Hl & Hn & _)|(_ & added & Hcb & Hlen)].
    { assert (Hin : (path, d) ∈ (path, d) :: nodes) by (by left).
      apply Hok in Hin. simpl in *. by rewrite Hl, Hn in Hin. }
    simpl in Hcb. simpl. rewrite Hcb.
    destruct (IH (log ++ added)) as (more & Hv & Hmore).
    { intros node Hnode. apply Hok. by right. }
    exists (added ++ more). rewrite Hv, <- app_assoc. split; [done|].
    rewrite length_app, Hlen, Hmore.
    by destruct (announced (path, d) || listed (path, d)).
Qed.

(** The walk panics exactly when some listed node parses to nil. *)
Lemma visitAll_panics nodes log :
  (exists log', visitAll nodes log = lister.Panicked log')
  <-> exists node, node ∈ nodes /\ listed node = true /\ parsesToNil node.1 = true.
Proof.
  revert log. induction nodes as [|[path d] nodes IH]; intros log.
  - simpl. split; [by intros [? ?]|]. intros (node & Hnode & _).
    by apply elem_of_nil in Hnode.
  - simpl. destruct (listCallback_cases (path, d) log)
      as [(Hl & Hn & Hcb)|(Hok & added & Hcb & _)]; simpl in Hcb; rewrite Hcb.
    + split; [|by eauto]. intros _. exists (path, d). split; [by left|done].
    + rewrite IH. split.
      * intros (node & Hnode & Hrest). exists node. split; [by right|done].
      * intros (node & [->|Hnode]%elem_of_cons & Hl & Hn).
        -- simpl in *. by rewrite Hl, Hn in Hok.
        -- by exists node.
Qed.

(** The walk never looks at what the parser says about a node that is not
    listed. *)
Lemma visitAll_parser (r' : runner.Runner Value) nodes log :
  runner.ToString r' = runner.ToString r ->
  runner.BrightBlue r' = runner.BrightBlue r ->
  runner.Bold r' = runner.Bold r ->
  runner.BrightYellow r' = runner.BrightYellow r ->
  runner.severityColors r' = runner.severityColors r ->
  (forall node, node ∈ nodes -> listed node = true ->
     runner.Parse r' node.1 = runner.Parse r node.1) ->
  lister.visitAll (lister.listCallback r' h cfg) nodes log = visitAll nodes log.
Proof.
  intros HS HB HBo HY HC. revert log.
  induction nodes as [|[path d] nodes IH]; intros log Hparse; [done|].
  simpl.
  assert (Hcb : lister.listCallback r' h cfg path d log = listCallback path d log).
  { unfold lister.listCallback.
    destruct (godirwalk.IsDir d && negb (String.eqb path (lister.TemplatesDirectory cfg)))
      eqn:Hdir; [done|].
    destruct (strings.HasSuffix path ".yaml") eqn:Hsuf; [|done].
    assert (HP : runner.Parse r' path = runner.Parse r path).
    { apply (Hparse (path, d)); [by left|].
      unfold Tally.listed. simpl. by rewrite Hdir, Hsuf. }
    unfold lister.logAvailableTemplate, runner.parseTemplateFile, runner.templateLogMsg.
    by rewrite HP, HS, HB, HBo, HY, HC. }
  rewrite Hcb. destruct (listCallback path d log); [|done].
  apply IH. intros node Hnode. apply Hparse. by right.
Qed.

End Listing.

(** [HasSuffix s suffix] holds exactly when [s] is something followed by
    [suffix]. *)
Lemma substring_skip (pre rest : string) (m : nat) :
  String.substring (String.length pre) m (pre +:+ rest) = String.substring 0 m rest.
Proof. induction pre as [|c pre IH]; [done|]. rewrite append_cons. simpl. apply IH. Qed.

Lemma substring_0_all (s : string) : String.substring 0 (String.length s) s = s.
Proof. induction s as [|c s IH]; simpl; [done|]. by rewrite IH. Qed.

Lemma string_split_at (n : nat) (s : string) :
  (n <= String.length s)%nat ->
  exists pre rest, s = pre +:+ rest /\ String.length pre = n.
Proof.
  revert s. induction n as [|n IH]; intros s Hn.
  - by exists "", s.
  - destruct s as [|c s]; simpl in Hn; [lia|].
    destruct (IH s) as (pre & rest & -> & Hlen); [lia|].
    exists (String c pre), rest. split; [done|]. simpl. by rewrite Hlen.
Qed.

Lemma HasSuffix_iff (s suffix : string) :
  strings.HasSuffix s suffix = true <-> exists pre, s = pre +:+ suffix.
Proof.
  unfold strings.HasSuffix. rewrite andb_true_iff, Nat.leb_le, String.eqb_eq. split.
  - intros [Hlen Hsub].
    destruct (string_split_at (String.length s - String.length suffix) s)
      as (pre & rest & -> & Hpre); [lia|].
    rewrite <- Hpre, substring_skip in Hsub.
    rewrite length_append in Hlen, Hpre.
    assert (String.length rest = String.length suffix) as Hrest by lia.
    rewrite <- Hrest, substring_0_all in Hsub. exists pre. by rewrite Hsub.
  - intros [pre ->]. rewrite length_append. split; [lia|].
    replace (String.length pre + String.length suffix - String.length suffix)%nat
      with (String.length pre) by lia.
    by rewrite substring_skip, substring_0_all.
Qed.

(** X13.  [logAvailableTemplate] panics exactly when [templates.Parse]
    returns a nil template with a nil error, and then it has logged
    nothing; in every other case it returns having logged exactly one
    message, at the Error level when [templates.Parse] returned an error
    and at the Print level otherwise. *)
Theorem logAvailableTemplate_outcome {Value : Type} (r : runner.Runner Value)
    (tplPath : string) (log : list gologger.Event) :
  match lister.logAvailableTemplate r tplPath log with
  | lister.Panicked log' => log' = log /\ runner.Parse r tplPath = (None, None)
  | lister.Returned log' =>
      runner.Parse r tplPath <> (None, None)
      /\ exists e, log' = log ++ [e]
           /\ gologger.level e
              = match (runner.Parse r tplPath).2 with
                | Some _ => gologger.Error
                | None => gologger.Print
                end
  end.
Proof.
  unfold lister.logAvailableTemplate, runner.parseTemplateFile.
  destruct (runner.Parse r tplPath) as [[t|] [err|]]; simpl; try done; eauto.
Qed.

(** X14.  The two listings of a template agree: for a template whose
    rendered severity is already lower-case, the line that
    [logAvailableTemplate] prints is, as text, the line that
    [getParsedTemplatesFor] logs when it loads that template. *)
Theorem listing_and_loading_print_the_same_line {Value : Type}
    (r : runner.Runner Value) (p : string) (t : templates.Template Value)
    (templateType : runner.TemplateType) :
  runner.parseTemplateFile r p = (Some t, None) ->
  runner.ToLower r (runner.ToString r (templates.Info t !! "severity"))
    = runner.ToString r (templates.Info t !! "severity") ->
  runner.typeSwitch templateType t 0 <> None ->
  exists msg,
    lister.logAvailableTemplate r p [] = lister.Returned [gologger.Msgf gologger.Print msg]
    /\ runner.logged (runner.getParsedTemplatesFor r [p] [] templateType)
       = [runner.loadingMsg templateType; gologger.Msgf gologger.Info msg].
Proof.
  intros Hp Hsev Hsw.
  unfold lister.logAvailableTemplate, runner.getParsedTemplatesFor, runner.loadOne.
  simpl. rewrite Hp.
  destruct (runner.typeSwitch templateType t 0) as [count|]; [|done].
  simpl. rewrite Hsev. eauto.
Qed.

Lemma listing_and_loading_print_the_same_line_witness :
  exists msg,
    lister.logAvailableTemplate Sample.r "adv.yaml" []
      = lister.Returned [gologger.Msgf gologger.Print msg]
    /\ runner.logged
         (runner.getParsedTemplatesFor Sample.r ["adv.yaml"] [] runner.AdvancedWorkflow)
       = [runner.loadingMsg runner.AdvancedWorkflow; gologger.Msgf gologger.Info msg].
Proof.
  apply (listing_and_loading_print_the_same_line Sample.r "adv.yaml" Sample.advHigh
           runner.AdvancedWorkflow).
  - reflexivity.
  - reflexivity.
  - discriminate.
Defined.

(** X15.  [listAvailableTemplates] panics exactly when there is a templates
    configuration, its directory exists, and the walk reaches a node that
    is handed to [logAvailableTemplate] (not a directory other than the
    templates directory, path ending in ".yaml") and parses to nil without
    an error. *)
Theorem listing_panics_on_nil_templates {Value : Type} (r : runner.Runner Value)
    (h : lister.Host) :
  (exists log, lister.listAvailableTemplates r h = lister.Panicked log)
  <-> exists cfg path d,
        lister.templatesConfig h = Some cfg
        /\ lister.NotExist h (lister.TemplatesDirectory cfg) = false
        /\ (path, d) ∈ lister.Walked h (lister.TemplatesDirectory cfg)
        /\ (godirwalk.IsDir d = false \/ path = lister.TemplatesDirectory cfg)
        /\ (exists pre, path = pre +:+ ".yaml")
        /\ runner.Parse r path = (None, None).
Proof.
  unfold lister.listAvailableTemplates, lister.directoryWalker.
  assert (Hnode : forall cfg path d,
    Tally.listed cfg (path, d) = true /\ Tally.parsesToNil r path = true
    <-> (godirwalk.IsDir d = false \/ path = lister.TemplatesDirectory cfg)
        /\ (exists pre, path = pre +:+ ".yaml")
        /\ runner.Parse r path = (None, None)).
  { intros cfg path d. unfold Tally.listed, Tally.parsesToNil, runner.parseTemplateFile.
    simpl. rewrite andb_true_iff, negb_true_iff, andb_false_iff, negb_false_iff,
      String.eqb_eq, HasSuffix_iff.
    destruct (runner.Parse r path) as [[t|] [err|]]; split;
      intros [[? ?] ?] || intros [? [? ?]]; try done. }
  destruct (lister.templatesConfig h) as [cfg|].
  2: { split; [by intros [? ?]|]. by intros (? & ? & ? & ? & _). }
  destruct (lister.NotExist h (lister.TemplatesDirectory cfg)) eqn:Hex.
  { split; [by intros [? ?]|]. intros (? & ? & ? & [= <-] & ? & _). congruence. }
  match goal with |- context [lister.visitAll ?cb ?nodes ?log] =>
    pose proof (visitAll_panics r h cfg nodes log) as Hv;
    destruct (lister.visitAll cb nodes log) as [log'|log'] eqn:Ev
  end.
  - split.
    + destruct (lister.WalkError h _); by intros [? ?].
    + intros (cfg' & path & d & [= <-] & _ & Hin & Hrest).
      destruct Hv as [_ Hv]. destruct Hv as [? ?]; [|done].
      exists (path, d). split; [done|]. by apply Hnode.
  - split; [|by eauto]. intros _.
    destruct Hv as [Hv _]. destruct Hv as ([path d] & Hin & Hl & Hn); [by eauto|].
    exists cfg, path, d. do 3 (split; [done|]). by apply Hnode.
Qed.

Lemma listing_panics_on_nil_templates_witness :
  exists log, lister.listAvailableTemplates Sample.r ListSample.hNil = lister.Panicked log.
Proof.
  apply (proj2 (listing_panics_on_nil_templates Sample.r ListSample.hNil)).
  exists ListSample.cfg, "nil.yaml", (ListSample.file "nil.yaml").
  split; [reflexivity|]. split; [reflexivity|].
  split; [right; right; by left|].
  split; [by left|]. split; [by exists "nil"|reflexivity].
Defined.

(** X16.  When no node handed to [logAvailableTemplate] parses to nil
    without an error, the listing returns, and its log is the heading, then
    exactly one message
    per node that is a directory other than the templates directory or has
    a path ending in ".yaml" (and none for any other node), then one Error
    message when the walk itself returned an error. *)
Theorem listing_logs_one_message_per_node {Value : Type} (r : runner.Runner Value)
    (h : lister.Host) (cfg : lister.Config) :
  lister.templatesConfig h = Some cfg ->
  lister.NotExist h (lister.TemplatesDirectory cfg) = false ->
  (forall path d,
     (path, d) ∈ lister.Walked h (lister.TemplatesDirectory cfg) ->
     godirwalk.IsDir d = false \/ path = lister.TemplatesDirectory cfg ->
     strings.HasSuffix path ".yaml" = true ->
     runner.Parse r path <> (None, None)) ->
  exists nodeMessages,
    lister.listAvailableTemplates r h
    = lister.Returned
        (gologger.Msgf gologger.Print
           (runner.newline +:+ "Listing available v." +:+ lister.CurrentVersion cfg
            +:+ " nuclei templates for " +:+ lister.TemplatesDirectory cfg)
         :: nodeMessages
         ++ match lister.WalkError h (lister.TemplatesDirectory cfg) with
            | Some err =>
                [gologger.Msgf gologger.Error
                   ("Could not find templates in directory '"
                    +:+ lister.TemplatesDirectory cfg +:+ "': " +:+ err
                    +:+ runner.newline)]
            | None => []
            end)
    /\ length nodeMessages
       = length
           (List.filter
              (fun node : string * godirwalk.Dirent =>
                 (godirwalk.IsDir node.2
                  && negb (String.eqb node.1 (lister.TemplatesDirectory cfg)))
                 || strings.HasSuffix node.1 ".yaml")
              (lister.Walked h (lister.TemplatesDirectory cfg))).
Proof.
  intros Hcfg Hex Hnil.
  unfold lister.listAvailableTemplates, lister.directoryWalker. rewrite Hcfg, Hex.
  match goal with |- context [lister.visitAll ?cb ?nodes ?log] =>
    destruct (visitAll_returns r h cfg nodes log) as (added & -> & Hlen)
  end.
  { intros [path d] Hin. unfold Tally.listed, Tally.parsesToNil, runner.parseTemplateFile.
    simpl. destruct (strings.HasSuffix path ".yaml") eqn:Hsuf;
      [|by rewrite andb_false_r].
    destruct (godirwalk.IsDir d && negb (String.eqb path (lister.TemplatesDirectory cfg)))
      eqn:Hdir; [done|]. simpl.
    assert (Hfile : godirwalk.IsDir d = false \/ path = lister.TemplatesDirectory cfg).
    { apply andb_false_iff in Hdir as [Hdir|Hdir]; [by left|].
      right. by apply negb_false_iff, String.eqb_eq in Hdir. }
    specialize (Hnil path d Hin Hfile Hsuf).
    by destruct (runner.Parse r path) as [[t|] [err|]]. }
  exists added. split.
  - destruct (lister.WalkError h _); simpl; [done|]. by rewrite app_nil_r.
  - rewrite Hlen. f_equal. apply List.filter_ext. intros [path d].
    unfold Tally.announced, Tally.listed. simpl.
    by destruct (godirwalk.IsDir d && _), (strings.HasSuffix path ".yaml").
Qed.

Lemma listing_logs_one_message_per_node_witness :
  exists nodeMessages,
    lister.listAvailableTemplates Sample.r ListSample.h
    = lister.Returned
        (gologger.Msgf gologger.Print
           (runner.newline +:+ "Listing available v."
            +:+ lister.CurrentVersion ListSample.cfg
            +:+ " nuclei templates for " +:+ lister.TemplatesDirectory ListSample.cfg)
         :: nodeMessages
         ++ match lister.WalkError ListSample.h (lister.TemplatesDirectory ListSample.cfg)
            with
            | Some err =>
                [gologger.Msgf gologger.Error
                   ("Could not find templates in directory '"
                    +:+ lister.TemplatesDirectory ListSample.cfg +:+ "': " +:+ err
                    +:+ runner.newline)]
            | None => []
            end)
    /\ length nodeMessages
       = length
           (List.filter
              (fun node : string * godirwalk.Dirent =>
                 (godirwalk.IsDir node.2
                  && negb (String.eqb node.1 (lister.TemplatesDirectory ListSample.cfg)))
                 || strings.HasSuffix node.1 ".yaml")
              (lister.Walked ListSample.h (lister.TemplatesDirectory ListSample.cfg))).
Proof.
  apply (listing_logs_one_message_per_node Sample.r ListSample.h ListSample.cfg).
  - reflexivity.
  - reflexivity.
  - intros path d Hin _ Hsuf.
    repeat (apply elem_of_cons in Hin as [[= -> ->]|Hin]; [by vm_compute|]).
    by apply elem_of_nil in Hin.
Defined.

(** X17.  The listing parses nothing but template files: what
    [templates.Parse] would return for a node that is a directory other
    than the templates directory, or whose path does not end in ".yaml",
    has no effect on what [listAvailableTemplates] logs or on whether it
    panics. *)
Theorem listing_parses_only_yaml_files {Value : Type} (r r' : runner.Runner Value)
    (h : lister.Host) :
  runner.ToString r' = runner.ToString r ->
  runner.BrightBlue r' = runner.BrightBlue r ->
  runner.Bold r' = runner.Bold r ->
  runner.BrightYellow r' = runner.BrightYellow r ->
  runner.severityColors r' = runner.severityColors r ->
  (forall cfg path d,
     lister.templatesConfig h = Some cfg ->
     (path, d) ∈ lister.Walked h (lister.TemplatesDirectory cfg) ->
     (godirwalk.IsDir d = false \/ path = lister.TemplatesDirectory cfg) ->
     (exists pre, path = pre +:+ ".yaml") ->
     runner.Parse r' path = runner.Parse r path) ->
  lister.listAvailableTemplates r' h = lister.listAvailableTemplates r h.
Proof.
  intros HS HB HBo HY HC Hparse.
  unfold lister.listAvailableTemplates, lister.directoryWalker.
  destruct (lister.templatesConfig h) as [cfg|] eqn:Hcfg; [|done].
  destruct (lister.NotExist h (lister.TemplatesDirectory cfg)); [done|].
  rewrite (visitAll_parser r h cfg r'); try done.
  intros [path d] Hin Hl. simpl. apply (Hparse cfg path d); try done.
  - unfold Tally.listed in Hl. simpl in Hl.
    apply andb_true_iff in Hl as [Hl _].
    apply negb_true_iff, andb_false_iff in Hl as [Hl|Hl]; [by left|].
    right. by apply negb_false_iff, String.eqb_eq in Hl.
  - unfold Tally.listed in Hl. simpl in Hl.
    apply andb_true_iff in Hl as [_ Hl]. by apply HasSuffix_iff.
Qed.

Lemma listing_parses_only_yaml_files_witness :
  lister.listAvailableTemplates
    (ListSample.withParse
       (fun file => if String.eqb file "README.md" then (None, None)
                    else Sample.Parse file))
    ListSample.h
  = lister.listAvailableTemplates Sample.r ListSample.h.
Proof.
  apply (listing_parses_only_yaml_files Sample.r
           (ListSample.withParse
              (fun file => if String.eqb file "README.md" then (None, None)
                           else Sample.Parse file))
           ListSample.h); try reflexivity.
  intros cfg path d _ _ _ [pre ->]. simpl.
  destruct (String.eqb_spec (pre +:+ ".yaml") "README.md") as [E|_]; [|done].
  exfalso. clear -E.
  assert (H : strings.HasSuffix "README.md" ".yaml" = true)
    by (apply HasSuffix_iff; by exists pre).
  discriminate H.
Defined.

(** ** Loading without a severity filter, and with distinct IDs *)
Section NoFilter.

Context {Value : Type}.
Variable r : runner.Runner Value.
Variable ty : runner.TemplateType.

(** Without severities, a path is accepted exactly when it parses to a
    template of the requested kind. *)
Lemma accepted_without_severities p :
  Tally.accepted r [] ty p = Load.parsesToKind r ty p.
Proof.
  unfold Tally.accepted, Load.accepts, Load.parsesToKind, Load.passesSeverity.
  destruct (runner.parseTemplateFile r p) as [[t|] [err|]]; try done.
  simpl. by destruct (Load.keptByType ty t).
Qed.

Variable severities : list string.

(** With distinct IDs every accepted path adds an entry. *)
Lemma size_loadAll_distinct paths :
  NoDup (Tally.acceptedIDs r severities ty paths) ->
  size (runner.parsedTemplates
          (Load.loadAll r severities ty paths
             {| runner.parsedTemplates := ∅; runner.workflowCount := 0;
                runner.logged := [runner.loadingMsg ty] |}))
  = length (List.filter (Tally.accepted r severities ty) paths).
Proof.
  induction paths as [|p paths IH] using rev_ind; intros Hnd.
  - simpl. apply map_size_empty.
  - unfold Tally.acceptedIDs in Hnd. rewrite omap_app in Hnd. simpl in Hnd.
    rewrite loadAll_app, List.filter_app, length_app. simpl.
    rewrite parsedTemplates_loadOne. unfold Tally.accepted at 2.
    destruct (Load.accepts r severities ty p) as [t|] eqn:Hp; simpl in *.
    + apply NoDup_app in Hnd as (Hnd & Hfresh & _).
      rewrite map_size_insert_None; [rewrite IH by done; lia|].
      destruct (runner.parsedTemplates _ !! templates.ID t) as [t'|] eqn:Hl; [|done].
      apply parsedTemplates_loadAll_origin in Hl as [Hl|(q & Hq & Hacc & Hid)].
      { simpl in Hl. by rewrite lookup_empty in Hl. }
      exfalso. apply (Hfresh (templates.ID t)); [|by left].
      apply list_elem_of_omap. exists q. split; [done|]. by rewrite Hacc, <- Hid.
    + rewrite app_nil_r in Hnd. rewrite IH by done. lia.
Qed.

End NoFilter.

(** X18.  Without severities nothing is excluded: every path that parses
    to a template the type switch keeps has an entry under that template's
    ID, and the Warning messages are exactly one per path that fails to
    parse. *)
Theorem no_severities_no_exclusion {Value : Type} (r : runner.Runner Value)
    (templatePaths : list string) (templateType : runner.TemplateType) :
  (forall p t count count',
     p ∈ templatePaths ->
     runner.parseTemplateFile r p = (Some t, None) ->
     runner.typeSwitch templateType t count = Some count' ->
     is_Some (runner.parsedTemplates
                (runner.getParsedTemplatesFor r templatePaths [] templateType)
              !! templates.ID t))
  /\ length (List.filter (Tally.hasLevel gologger.Warning)
               (runner.logged
                  (runner.getParsedTemplatesFor r templatePaths [] templateType)))
     = length (List.filter (Tally.failsToParse r) templatePaths).
Proof.
  split.
  - intros p t count count' Hin Hp Hsw.
    rewrite getParsedTemplatesFor_loadAll.
    destruct (parsedTemplates_loadAll_covered r [] templateType templatePaths
                {| runner.parsedTemplates := ∅; runner.workflowCount := 0;
                   runner.logged := [runner.loadingMsg templateType] |} p t Hin)
      as (q & t' & _ & _ & _ & Hl); [|by rewrite Hl].
    unfold Load.accepts. rewrite Hp. rewrite typeSwitch_kept in Hsw.
    by destruct (Load.keptByType templateType t).
  - rewrite getParsedTemplatesFor_loadAll, logged_loadAll. cbn [runner.logged].
    rewrite List.filter_app, length_app.
    assert (List.filter (Tally.hasLevel gologger.Warning)
              [runner.loadingMsg templateType] = []) as ->.
    { unfold runner.loadingMsg.
      by destruct (templateType =? runner.AdvancedWorkflow)%N,
                  (templateType =? runner.Workflows)%N. }
    simpl.
    rewrite (tally_concat _ _
               (fun p => Tally.failsToParse r p
                         || (Load.parsesToKind r templateType p
                             && negb (Tally.accepted r [] templateType p)))).
    + f_equal. apply List.filter_ext. intros p.
      rewrite accepted_without_severities.
      by destruct (Tally.failsToParse r p), (Load.parsesToKind r templateType p).
    + intros p. apply (tally_emitted r [] templateType p).
Qed.

Lemma no_severities_no_exclusion_witness :
  is_Some (runner.parsedTemplates
             (runner.getParsedTemplatesFor Sample.r ["gone.yaml"; "a.yaml"; "wf.yaml"] []
                runner.Workflows)
           !! templates.ID Sample.wfLow).
Proof.
  apply (proj1 (no_severities_no_exclusion Sample.r ["gone.yaml"; "a.yaml"; "wf.yaml"]
                  runner.Workflows) "wf.yaml" Sample.wfLow 0 1).
  - right. right. by left.
  - reflexivity.
  - reflexivity.
Defined.

(** X19.  For the two workflow kinds, the counter and the map agree when
    nothing is filtered and nothing collides: without severities, and with
    pairwise distinct IDs among the accepted templates (path by path),
    [workflowCount] is the number of entries of the map. *)
Theorem workflowCount_is_map_size_when_ids_differ {Value : Type}
    (r : runner.Runner Value) (templatePaths : list string)
    (templateType : runner.TemplateType) :
  templateType = runner.Workflows \/ templateType = runner.AdvancedWorkflow ->
  NoDup (Tally.acceptedIDs r [] templateType templatePaths) ->
  runner.workflowCount (runner.getParsedTemplatesFor r templatePaths [] templateType)
  = Z.of_nat (size (runner.parsedTemplates
                      (runner.getParsedTemplatesFor r templatePaths [] templateType))).
Proof.
  intros Hty Hnd. rewrite !getParsedTemplatesFor_loadAll.
  rewrite size_loadAll_distinct by done.
  rewrite workflowCount_loadAll. simpl. rewrite Z.add_0_l. do 2 f_equal.
  apply List.filter_ext. intros p. rewrite accepted_without_severities.
  unfold Load.bump.
  assert (Load.countedKind templateType = true) as -> by (by destruct Hty as [-> | ->]).
  by destruct (Load.parsesToKind r templateType p).
Qed.

Lemma workflowCount_is_map_size_when_ids_differ_witness :
  runner.workflowCount
    (runner.getParsedTemplatesFor Sample.r ["wf.yaml"; "a.yaml"; "gone.yaml"] []
       runner.Workflows)
  = Z.of_nat (size (runner.parsedTemplates
                      (runner.getParsedTemplatesFor Sample.r
                         ["wf.yaml"; "a.yaml"; "gone.yaml"] [] runner.Workflows))).
Proof.
  apply (workflowCount_is_map_size_when_ids_differ Sample.r
           ["wf.yaml"; "a.yaml"; "gone.yaml"] runner.Workflows).
  - by left.
  - vm_compute. apply NoDup_singleton.
Defined.
